(** * SilicaSense: the reading-ingestion and polling state machine of App.tsx

    A shallow embedding of the top-level component's logic: the reading
    parser and alert dispatcher ([processData], [triggerNotification]), the
    history buffer, the countdown timer, the disconnect handler and the
    simulation toggle.  React state ([useState]) and refs ([useRef]) are the
    fields of one record threaded through a small state monad; browser side
    effects (OS notification, vibration, console output, the request to read
    the sensor) are written to an event log. *)

From Stdlib Require Import ZArith Lia Ascii.
From stdpp Require Import base list strings pretty gmap.
From Stdlib Require PrimFloat FloatOps SpecFloat.
Import (notations) PrimFloat.

Local Open Scope Z_scope.

(** ** JavaScript strings

    A payload is a [string]; its characters stand for UTF-16 code units.  The
    sensor protocol is ASCII text, and [trim] and [toUpperCase] follow
    ECMAScript on the code units U+0000 to U+007F.  Code units above that range
    are kept as they are: neither white space nor cased. *)
Module JSString.

Definition code (c : ascii) : N := Ascii.N_of_ascii c.

(** WhiteSpace and LineTerminator code units below U+0080:
    TAB, LF, VT, FF, CR and SP. *)
Definition isWhiteSpace (c : ascii) : bool :=
  ((9 <=? code c) && (code c <=? 13) || (code c =? 32))%N.

Definition isLower (c : ascii) : bool := ((97 <=? code c) && (code c <=? 122))%N.
Definition isUpper (c : ascii) : bool := ((65 <=? code c) && (code c <=? 90))%N.

Definition upperChar (c : ascii) : ascii :=
  if isLower c then Ascii.ascii_of_N (code c - 32) else c.

(** [s.toUpperCase()] *)
Fixpoint toUpperCase (s : string) : string :=
  match s with
  | EmptyString => EmptyString
  | String c s' => String (upperChar c) (toUpperCase s')
  end.

(** [s.trimStart()] *)
Fixpoint trimStart (s : string) : string :=
  match s with
  | EmptyString => EmptyString
  | String c s' => if isWhiteSpace c then trimStart s' else s
  end.

(** [s.trimEnd()] *)
Fixpoint trimEnd (s : string) : string :=
  match s with
  | EmptyString => EmptyString
  | String c s' =>
      match trimEnd s' with
      | EmptyString => if isWhiteSpace c then EmptyString else String c EmptyString
      | r => String c r
      end
  end.

(** [s.trim()] *)
Definition trim (s : string) : string := trimEnd (trimStart s).

(** [s.split(sep)] for a separator of one code unit: the pieces between the
    occurrences of [sep], in order; never the empty array. *)
Fixpoint split (sep : ascii) (s : string) : list string :=
  match s with
  | EmptyString => [EmptyString]
  | String c s' =>
      if Ascii.eqb c sep then EmptyString :: split sep s'
      else match split sep s' with
           | p :: ps => String c p :: ps
           | [] => [String c EmptyString]
           end
  end.

(** [s.includes(pat)]: [pat] occurs in [s] at some position. *)
Fixpoint includes (pat s : string) : bool :=
  String.prefix pat s ||
  match s with
  | EmptyString => false
  | String _ s' => includes pat s'
  end.

(** Does the code unit [c] occur in [s]? *)
Fixpoint hasChar (c : ascii) (s : string) : bool :=
  match s with
  | EmptyString => false
  | String d s' => Ascii.eqb d c || hasChar c s'
  end.


(** Two code units that are the same letter in either case, or equal. *)
Definition sameLetter (c d : ascii) : bool :=
  Ascii.eqb c d
  || (isLower c && (code d =? code c - 32)%N)
  || (isUpper c && (code d =? code c + 32)%N).

(** [s'] is [s] with the case of some of its letters changed. *)
Fixpoint caseVariant (s s' : string) : bool :=
  match s, s' with
  | EmptyString, EmptyString => true
  | String c r, String d r' => sameLetter c d && caseVariant r r'
  | _, _ => false
  end.

(** [pat] occurs in [s]: some text, then [pat], then some text. *)
Definition occursIn (pat s : string) : Prop := ∃ a b, s = a +:+ pat +:+ b.

(** The text before the first [sep] of [s], all of [s] when it has none;
    and the text after that first [sep]. *)
Fixpoint firstPiece (sep : ascii) (s : string) : string :=
  match s with
  | EmptyString => EmptyString
  | String c s' => if Ascii.eqb c sep then EmptyString else String c (firstPiece sep s')
  end.

Fixpoint afterFirst (sep : ascii) (s : string) : string :=
  match s with
  | EmptyString => EmptyString
  | String c s' => if Ascii.eqb c sep then s' else afterFirst sep s'
  end.

End JSString.

(** ** JavaScript numbers

    A [Number] is an IEEE double.  The component only parses numbers, tests
    them for truthiness and stores them, so the embedding is generic in the
    number type: [parseFloat] and the two tests ECMAScript's [ToBoolean] is
    defined by are the operations of an interface. *)
Class JSNumber := {
  number : Type;
  (** the global [parseFloat] *)
  parseFloat : string → number;
  (** an integer literal such as [0] *)
  numLit : Z → number;
  (** the value is [NaN] *)
  isNaN : number → bool;
  (** the value is [+0] or [-0] *)
  isZero : number → bool;
}.

(** [ToBoolean] on a Number: false for [+0], [-0] and [NaN], true otherwise. *)
Definition toBoolean `{JSNumber} (n : number) : bool := negb (isNaN n || isZero n).

(** [a || b] on Numbers: [a] when it is truthy, otherwise [b]. *)
Definition logicalOr `{JSNumber} (a b : number) : number :=
  if toBoolean a then a else b.

(** An executable instance: a number is kept as the exact value of the decimal
    literal that was parsed, sign * mantissa * 10^exponent; its rounding to a
    double is not modelled. *)
Module Decimal.
Import JSString.

Inductive decimal :=
| NaN
| Infinity (neg : bool)
| Finite (neg : bool) (mant : N) (exp : Z).

Definition digitVal (c : ascii) : option N :=
  if ((48 <=? code c) && (code c <=? 57))%N then Some (code c - 48)%N else None.

(** Reads the longest run of decimal digits at the start of [s]:
    the value accumulated onto [acc], the number of digits read, the rest. *)
Fixpoint digits (s : string) (acc : N) (count : nat) : N * nat * string :=
  match s with
  | EmptyString => (acc, count, s)
  | String c s' =>
      match digitVal c with
      | Some d => digits s' (10 * acc + d)%N (S count)
      | None => (acc, count, s)
      end
  end.

Definition signOf (s : string) : bool * string :=
  match s with
  | String c r =>
      if Ascii.eqb c "+" then (false, r)
      else if Ascii.eqb c "-" then (true, r)
      else (false, s)
  | EmptyString => (false, s)
  end.

(** ExponentPart, when one is present at the start of [s]; otherwise 0. *)
Definition exponentPart (s : string) : Z :=
  match s with
  | String c r =>
      if Ascii.eqb c "e" || Ascii.eqb c "E" then
        let '(neg, r') := signOf r in
        let '(v, n, _) := digits r' 0%N 0%nat in
        if (n =? 0)%nat then 0 else if neg then - Z.of_N v else Z.of_N v
      else 0
  | EmptyString => 0
  end.

(** [parseFloat]: skip leading white space, then take the longest prefix
    that is a StrDecimalLiteral; [NaN] when there is none. *)
Definition parse (s : string) : decimal :=
  let '(neg, r) := signOf (trimStart s) in
  if String.prefix "Infinity" r then Infinity neg
  else
    let '(i, ni, r1) := digits r 0%N 0%nat in
    let '(m, nf, r2) :=
      match r1 with
      | String c r1' => if Ascii.eqb c "." then digits r1' i 0%nat else (i, 0%nat, r1)
      | EmptyString => (i, 0%nat, r1)
      end in
    if (ni + nf =? 0)%nat then NaN
    else Finite neg m (exponentPart r2 - Z.of_nat nf).

Definition ofZ (z : Z) : decimal := Finite (z <? 0) (Z.abs_N z) 0.

Definition is_nan (d : decimal) : bool :=
  match d with NaN => true | _ => false end.

Definition is_zero (d : decimal) : bool :=
  match d with Finite _ 0%N _ => true | _ => false end.

#[export] Instance decimalNumber : JSNumber := {|
  number := decimal;
  parseFloat := parse;
  numLit := ofZ;
  isNaN := is_nan;
  isZero := is_zero;
|}.
End Decimal.

(** ** Data model (types.ts) *)

(** The values of a reading's [moisture] field.  App.tsx computes with four
    of them, [MoistureStatus.DRY], [.MIXED], [.WET] and [.UNKNOWN], and
    compares them with [===].  The enum declaration lists DRY, WET and UNKNOWN
    (see [declaredMembers]); [MIXED] stands for the value of the expression
    [MoistureStatus.MIXED], which [===] tells apart from the three declared
    members. *)
Inductive MoistureStatus := DRY | MIXED | WET | UNKNOWN.

(** The members the enum declaration lists, each with its string value. *)
Definition declaredMembers : list (string * MoistureStatus) :=
  [("DRY", DRY); ("WET", WET); ("UNKNOWN", UNKNOWN)].

Inductive ConnectionStatus := disconnected | connecting | connected.

Record BluetoothDevice := {
  deviceId : string;
  deviceName : option string;
}.

(** A characteristic is an opaque handle that can be asked for its value. *)
Record BluetoothRemoteGATTCharacteristic := {
  handle : nat;
}.

(** What the component does to the world outside its own state. *)
Inductive Effect :=
| NewNotification (title body icon : string)   (* new Notification(title, {body, icon}) *)
| Vibrate (pattern : list Z)                   (* navigator.vibrate(pattern) *)
| ConsoleLog (message : string)                (* console.log(message) *)
| FetchReading.                                (* fetchReading() is called *)

(** [Notification.permission]: 'granted', 'denied' or 'default'. *)
Inductive Permission := granted | denied | undecided.

#[global] Instance MoistureStatus_eq_dec : EqDecision MoistureStatus.
Proof. solve_decision. Defined.
#[global] Instance ConnectionStatus_eq_dec : EqDecision ConnectionStatus.
Proof. solve_decision. Defined.
#[global] Instance Permission_eq_dec : EqDecision Permission.
Proof. solve_decision. Defined.

(** What a handler observes of the browser while it runs. *)
Record Browser := {
  notificationInWindow : bool;     (* 'Notification' in window *)
  permission : Permission;         (* Notification.permission *)
  canVibrate : bool;               (* navigator.vibrate is truthy *)
  dateNow : Z;                     (* Date.now(), milliseconds *)
  newDate : Z;                     (* new Date(), as milliseconds *)
}.

(** A phone that shows notifications and vibrates; used in the examples. *)
Definition phone : Browser := {|
  notificationInWindow := true;
  permission := granted;
  canVibrate := true;
  dateNow := 1700000000000;
  newDate := 1700000000001;
|}.

(** A desktop browser in which the user has not answered the permission
    prompt; used in the examples. *)
Definition desktop : Browser := {|
  notificationInWindow := true;
  permission := undecided;
  canVibrate := false;
  dateNow := 1700000000500;
  newDate := 1700000000500;
|}.

Inductive Completion (A : Type) :=
| Normal (a : A)
| Throw (error : string).
Arguments Normal {A} a.
Arguments Throw {A} error.

Section Model.
Context {J : JSNumber}.
Import JSString.

Record Reading := {
  id : string;
  timestamp : Z;
  temperature : number;
  moisture : MoistureStatus;
}.

(** The [useState] cells and [useRef] boxes of [App].  [nextUpdateIn] is a
    Number that only ever holds integers (0, 1, 5, 30, 120, 300 and what
    counting down from them gives), hence [Z]. *)
Record AppState := {
  connectionStatus : ConnectionStatus;
  readings : list Reading;
  latestReading : option Reading;
  notification : option string;
  nextUpdateIn : Z;
  isSimulationMode : bool;
  deviceRef : option BluetoothDevice;
  characteristicRef : option BluetoothRemoteGATTCharacteristic;
}.

(** The state [App] is mounted with. *)
Definition initialState : AppState := {|
  connectionStatus := disconnected;
  readings := [];
  latestReading := None;
  notification := None;
  nextUpdateIn := 0;
  isSimulationMode := false;
  deviceRef := None;
  characteristicRef := None;
|}.

(** A handler reads the browser, updates the state, logs its effects, and
    completes normally or by throwing.  State updates and effects made
    before a throw stay made. *)
Definition M (A : Type) : Type :=
  Browser → AppState → Completion A * AppState * list Effect.

Definition ret {A} (a : A) : M A := λ _ st, (Normal a, st, []).

Definition bind {A B} (m : M A) (k : A → M B) : M B := λ b st,
  match m b st with
  | (Normal a, st1, log1) =>
      let '(r, st2, log2) := k a b st1 in (r, st2, log1 ++ log2)
  | (Throw e, st1, log1) => (Throw e, st1, log1)
  end.

Definition throw {A} (e : string) : M A := λ _ st, (Throw e, st, []).
Definition emit (e : Effect) : M unit := λ _ st, (Normal (), st, [e]).
Definition browser : M Browser := λ b st, (Normal b, st, []).
Definition getState : M AppState := λ _ st, (Normal st, st, []).
Definition modify (f : AppState → AppState) : M unit := λ _ st, (Normal (), f st, []).

(** The state setters returned by [useState], and assignment to [ref.current]. *)
Definition setConnectionStatus (v : ConnectionStatus) : M unit :=
  modify (λ st, {| connectionStatus := v; readings := readings st;
    latestReading := latestReading st; notification := notification st;
    nextUpdateIn := nextUpdateIn st; isSimulationMode := isSimulationMode st;
    deviceRef := deviceRef st; characteristicRef := characteristicRef st |}).

Definition setReadings (f : list Reading → list Reading) : M unit :=
  modify (λ st, {| connectionStatus := connectionStatus st; readings := f (readings st);
    latestReading := latestReading st; notification := notification st;
    nextUpdateIn := nextUpdateIn st; isSimulationMode := isSimulationMode st;
    deviceRef := deviceRef st; characteristicRef := characteristicRef st |}).

Definition setLatestReading (v : option Reading) : M unit :=
  modify (λ st, {| connectionStatus := connectionStatus st; readings := readings st;
    latestReading := v; notification := notification st;
    nextUpdateIn := nextUpdateIn st; isSimulationMode := isSimulationMode st;
    deviceRef := deviceRef st; characteristicRef := characteristicRef st |}).

Definition setNotification (v : option string) : M unit :=
  modify (λ st, {| connectionStatus := connectionStatus st; readings := readings st;
    latestReading := latestReading st; notification := v;
    nextUpdateIn := nextUpdateIn st; isSimulationMode := isSimulationMode st;
    deviceRef := deviceRef st; characteristicRef := characteristicRef st |}).

Definition setNextUpdateIn (f : Z → Z) : M unit :=
  modify (λ st, {| connectionStatus := connectionStatus st; readings := readings st;
    latestReading := latestReading st; notification := notification st;
    nextUpdateIn := f (nextUpdateIn st); isSimulationMode := isSimulationMode st;
    deviceRef := deviceRef st; characteristicRef := characteristicRef st |}).

Definition setIsSimulationMode (v : bool) : M unit :=
  modify (λ st, {| connectionStatus := connectionStatus st; readings := readings st;
    latestReading := latestReading st; notification := notification st;
    nextUpdateIn := nextUpdateIn st; isSimulationMode := v;
    deviceRef := deviceRef st; characteristicRef := characteristicRef st |}).

Definition setDeviceRef (v : option BluetoothDevice) : M unit :=
  modify (λ st, {| connectionStatus := connectionStatus st; readings := readings st;
    latestReading := latestReading st; notification := notification st;
    nextUpdateIn := nextUpdateIn st; isSimulationMode := isSimulationMode st;
    deviceRef := v; characteristicRef := characteristicRef st |}).

Definition setCharacteristicRef (v : option BluetoothRemoteGATTCharacteristic) : M unit :=
  modify (λ st, {| connectionStatus := connectionStatus st; readings := readings st;
    latestReading := latestReading st; notification := notification st;
    nextUpdateIn := nextUpdateIn st; isSimulationMode := isSimulationMode st;
    deviceRef := deviceRef st; characteristicRef := v |}).

#[global] Instance M_ret : MRet M := @ret.
#[global] Instance M_bind : MBind M := λ A B k m, bind m k.

(** What running a handler leaves behind. *)
Definition completion {A} (m : M A) (b : Browser) (st : AppState) : Completion A := (m b st).1.1.
Definition exec {A} (m : M A) (b : Browser) (st : AppState) : AppState := (m b st).1.2.
Definition effects {A} (m : M A) (b : Browser) (st : AppState) : list Effect := (m b st).2.

(** *** Alert dispatcher *)

(** Where the guards let them through, the [Notification] constructor and
    [navigator.vibrate] are taken to return normally. *)
Definition triggerNotification (message : string) : M unit :=
  setNotification (Some message);;
  b ← browser;
  (* Browser System Notification *)
  (if notificationInWindow b && bool_decide (permission b = granted)
   then emit (NewNotification "SilicaSense Alert" message "/icon.png")
   else mret ());;
  (* Haptic Feedback *)
  (if canVibrate b
   then emit (Vibrate [200; 100; 200; 100; 500])
   else mret ()).

(** *** Reading parser, history buffer and cadence *)

(** [a.slice(-n)]: from index [max (length a - n) 0] to the end. *)
Definition sliceLast {A} (n : nat) (a : list A) : list A := drop (length a - n) a.

(** [parseFloat(a[i])]; an index out of range reads [undefined], which
    [parseFloat] converts to the string "undefined". *)
Definition parseFloatAt (a : list string) (i : nat) : number :=
  parseFloat (default "undefined" (a !! i)).

(** [a[i].trim()]; calling a method on [undefined] throws. *)
Definition trimAt (a : list string) (i : nat) : M string :=
  match a !! i with
  | Some s => mret (trim s)
  | None => throw "TypeError: Cannot read properties of undefined (reading 'trim')"
  end.

(** [Date.now().toString()] is the decimal numeral of the millisecond count. *)
Definition processData (dataString : string) : M unit :=
  (* Expected format: "37.5,DRY" or "37.5,WET" or "37.5,MIXED" *)
  let parts := split "," dataString in
  let temp := numLit 0 in
  let moisture := UNKNOWN in
  '(temp, moisture) ←
    (if bool_decide (2 ≤ length parts)%nat then
       let temp := parseFloatAt parts 0 in
       trimmed ← trimAt parts 1;
       let moistureStr := toUpperCase trimmed in
       mret (temp,
             if decide (moistureStr = "WET") then WET
             else if decide (moistureStr = "MIXED") then MIXED
             else DRY)
     else
       (* Fallback parsing if format differs *)
       let temp := logicalOr (parseFloat dataString) (numLit 0) in
       mret (temp,
             if includes "WET" dataString then WET
             else if includes "MIXED" dataString then MIXED
             else DRY));
  b ← browser;
  let newReading := {|
    id := pretty (dateNow b);
    timestamp := newDate b;
    temperature := temp;
    moisture := moisture
  |} in
  setLatestReading (Some newReading);;
  setReadings (λ prev, sliceLast 20 (prev ++ [newReading]));;   (* Keep last 20 *)
  (* Logic: Poll rates and Notifications based on status *)
  if decide (moisture = WET) then
    triggerNotification "Excessive moisture detected! Silica gel is saturated.";;
    (* If wet, poll faster to see active changes *)
    setNextUpdateIn (λ _, 30)
  else if decide (moisture = MIXED) then
    (* Mixed: No alarm yet, but poll faster than dry *)
    setNotification None;;
    setNextUpdateIn (λ _, 120)
  else
    (* Dry: Standard poll rate *)
    setNotification None;;
    setNextUpdateIn (λ _, 300).

(** The message [processData] alerts with. *)
Definition alertMessage : string :=
  "Excessive moisture detected! Silica gel is saturated.".

(** Feeding a sequence of payloads, each with the browser it arrives in. *)
Fixpoint processAll (inputs : list (Browser * string)) (st : AppState) : AppState :=
  match inputs with
  | [] => st
  | (b, dataString) :: rest => processAll rest (exec (processData dataString) b st)
  end.

(** The readings produced along the way, in arrival order: what
    [latestReading] holds after each payload. *)
Fixpoint produced (inputs : list (Browser * string)) (st : AppState) : list Reading :=
  match inputs with
  | [] => []
  | (b, dataString) :: rest =>
      let st' := exec (processData dataString) b st in
      option_list (latestReading st') ++ produced rest st'
  end.

(** *** Connection manager: teardown *)

Definition onDisconnected : M unit :=
  emit (ConsoleLog "Device disconnected");;
  setConnectionStatus disconnected;;
  setDeviceRef None;;
  setCharacteristicRef None;;
  setNotification (Some "Device Disconnected").

(** *** Polling scheduler *)

(** The polling effect installs its interval timer unless
    [connectionStatus !== 'connected' && !isSimulationMode]. *)
Definition timerRuns (st : AppState) : bool :=
  negb (bool_decide (connectionStatus st ≠ connected) && negb (isSimulationMode st)).

(** The updater the interval callback passes to [setNextUpdateIn]. *)
Definition tickUpdater (prev : Z) : M Z :=
  if bool_decide (prev ≤ 1) then
    emit FetchReading;;
    (* Reset will happen inside processData based on result *)
    mret 5   (* Temporary buffer *)
  else mret (prev - 1).

(** One firing of the interval callback: the updater is applied, once, to the
    current count.  [fetchReading] is asynchronous; the payload it obtains
    reaches [processData] as a later event ([DataReceived] below). *)
Definition timerTick : M unit :=
  st ← getState;
  next ← tickUpdater (nextUpdateIn st);
  setNextUpdateIn (λ _, next).

(** *** Simulation toggle *)

Definition toggleSimulation : M unit :=
  st ← getState;
  if isSimulationMode st then
    setIsSimulationMode false;;
    setConnectionStatus disconnected;;
    setReadings (λ _, []);;
    setLatestReading None
  else
    setIsSimulationMode true;;
    setConnectionStatus connected;;   (* Fake connection *)
    setNextUpdateIn (λ _, 1).         (* Trigger immediate read *)

(** *** The component as a state machine *)

(** What can happen to the mounted component. *)
Inductive Event :=
| DataReceived (dataString : string)   (* a read delivers a payload to processData *)
| TimerFired                           (* the interval elapses *)
| Disconnected                         (* 'gattserverdisconnected' *)
| SimulationToggled.                   (* the demo-mode button is clicked *)

(** The interval only exists while [timerRuns]. *)
Definition dispatch (e : Event) : M unit :=
  match e with
  | DataReceived dataString => processData dataString
  | TimerFired => st ← getState; if timerRuns st then timerTick else mret ()
  | Disconnected => onDisconnected
  | SimulationToggled => toggleSimulation
  end.

Fixpoint run (trace : list (Browser * Event)) (st : AppState) : AppState :=
  match trace with
  | [] => st
  | (b, e) :: rest => run rest (exec (dispatch e) b st)
  end.

End Model.

(** * The rest of the component: formatting, rendering and the asynchronous
      handlers *)

(** ** Host formatting

    Two formatting operations of the host are not modelled and are taken as
    an interface: [Number::toString] for a finite Number of magnitude 10^21
    and above (exponent notation), which [toFixed] falls back to, and
    [Date.prototype.toLocaleTimeString], which depends on the locale. *)
Class JSFormat := {
  largeToString : PrimFloat.float → string;
  (** [date.toLocaleTimeString([], { hour: '2-digit', minute: '2-digit' })],
      for a date given in milliseconds *)
  toLocaleTimeString : Z → string;
}.

Module JSText.

(** The first [k] code units of [fill] repeated for ever; [cur] is what is
    left of the current copy. *)
Fixpoint cycle (k : nat) (fill cur : string) : string :=
  match k with
  | O => EmptyString
  | S k' =>
      match cur with
      | String c r => String c (cycle k' fill r)
      | EmptyString =>
          match fill with
          | String c r => String c (cycle k' fill r)
          | EmptyString => EmptyString
          end
      end
  end.

(** [s.padStart(targetLength, padString)] *)
Definition padStart (targetLength : nat) (padString : string) (s : string) : string :=
  if (targetLength <=? String.length s)%nat then s
  else cycle (targetLength - String.length s) padString padString +:+ s.

End JSText.

(** Doubles, for the arithmetic of the simulation and the chart: Rocq's
    primitive binary64 floats, whose exact value [Prim2SF] exposes. *)
Module JSFloat.
Import SpecFloat.

(** Is [m * 2^e] at least 10^21? *)
Definition atLeast1e21 (m : positive) (e : Z) : bool :=
  if 0 <=? e then 10 ^ 21 <=? Z.pos m * 2 ^ e
  else 10 ^ 21 * 2 ^ (- e) <=? Z.pos m.

(** The integer [n] for which [n / 10^f - m * 2^e] is as close to zero as
    possible, the larger one when there are two. *)
Definition roundScaled (f : nat) (m : positive) (e : Z) : Z :=
  if 0 <=? e then Z.pos m * 2 ^ e * 10 ^ Z.of_nat f
  else (2 * Z.pos m * 10 ^ Z.of_nat f + 2 ^ (- e)) / 2 ^ (- e + 1).

(** The digits of [n], padded with zeros to [f + 1] digits, with a decimal
    point before the last [f] of them. *)
Definition fixedDigits (f : nat) (n : Z) : string :=
  let m := pretty n in
  if (f =? 0)%nat then m
  else
    let m := JSText.padStart (S f) "0" m in
    let k := String.length m in
    String.substring 0 (k - f) m +:+ "." +:+ String.substring (k - f) f m.

(** [x.toFixed(f)] *)
Definition toFixed `{JSFormat} (f : nat) (x : PrimFloat.float) : Completion string :=
  if (100 <? f)%nat then
    Throw "RangeError: toFixed() digits argument must be between 0 and 100"
  else
    match FloatOps.Prim2SF x with
    | S754_nan => Normal "NaN"
    | S754_infinity false => Normal "Infinity"
    | S754_infinity true => Normal "-Infinity"
    | S754_zero _ => Normal (fixedDigits f 0)
    | S754_finite s m e =>
        let sign := if s then "-" else "" in
        if atLeast1e21 m e then Normal (sign +:+ largeToString (PrimFloat.abs x))
        else Normal (sign +:+ fixedDigits f (roundScaled f m e))
    end.

End JSFloat.

(** ** Presentation *)

(** [formatTime]: the countdown label.  [seconds] is the integer
    [nextUpdateIn]; [Math.floor(seconds / 60)] and [seconds % 60] are taken on
    integers. *)
Definition formatTime (seconds : Z) : string :=
  if bool_decide (seconds ≤ 0) then "Updating..."
  else
    let m := seconds `div` 60 in
    let s := seconds `rem` 60 in
    pretty m +:+ ":" +:+ JSText.padStart 2 "0" (pretty s).

(** [status] is [latestReading?.moisture]: [None] when there is no reading. *)
Definition getMoistureColor (status : option MoistureStatus) : string :=
  match status with
  | Some WET => "red"
  | Some MIXED => "orange"
  | Some DRY => "green"
  | _ => "gray"
  end.

Definition getMoistureText (status : option MoistureStatus) : string :=
  match status with
  | Some WET => "Moisture Detected"
  | Some MIXED => "Mixed Levels"
  | Some DRY => "Silica Gel Dry"
  | _ => "Waiting for Data"
  end.






(** ** Asynchronous handlers: errors, the outside world, outputs *)

(** What a catch clause reads of the value thrown: [error.name] and
    [error.message], the empty string where the property is missing. *)
Record JSError := {
  errorName : string;
  errorMessage : string;
}.

(** [new Error(message)] *)
Definition newError (message : string) : JSError :=
  {| errorName := "Error"; errorMessage := message |}.

(** How a promise settles. *)
Inductive Settled (A : Type) :=
| Fulfilled (value : A)
| Rejected (reason : JSError).
Arguments Fulfilled {A} value.
Arguments Rejected {A} reason.

(** A service or characteristic is named by a UUID string or by a number. *)
Inductive UUID := UUIDText (s : string) | UUIDNumber (n : Z).

Definition SERVICE_UUID_LONG : UUID := UUIDText "0000ffe0-0000-1000-8000-00805f9b34fb".
Definition SERVICE_UUID_SHORT : UUID := UUIDNumber 65504.   (* 0xFFE0 *)
Definition CHARACTERISTIC_UUID_LONG : UUID := UUIDText "0000ffe1-0000-1000-8000-00805f9b34fb".
Definition CHARACTERISTIC_UUID_SHORT : UUID := UUIDNumber 65505.   (* 0xFFE1 *)

Record BluetoothRemoteGATTServer := {
  serverHandle : nat;
}.

Record BluetoothRemoteGATTService := {
  serviceHandle : nat;
}.

(** The calls a handler makes to the outside and awaits (or, for
    [Math.random], reads at once). *)
Inductive ExternalCall :=
| CallRequestDevice (acceptAllDevices : bool) (optionalServices : list UUID)
| CallGattConnect (device : BluetoothDevice)
| CallGetPrimaryService (server : BluetoothRemoteGATTServer) (service : UUID)
| CallGetCharacteristic (service : BluetoothRemoteGATTService) (characteristic : UUID)
| CallReadValue (characteristic : BluetoothRemoteGATTCharacteristic)
| CallRandom.

(** What the outside answers. *)
Record World := {
  requestDevice : Settled BluetoothDevice;
  gattConnect : BluetoothDevice → Settled BluetoothRemoteGATTServer;
  getPrimaryService :
    BluetoothRemoteGATTServer → UUID → Settled BluetoothRemoteGATTService;
  getCharacteristic :
    BluetoothRemoteGATTService → UUID → Settled BluetoothRemoteGATTCharacteristic;
  (** [readValue()] followed by [new TextDecoder('utf-8').decode(value)] *)
  readValue : BluetoothRemoteGATTCharacteristic → Settled string;
  (** the [n]-th [Math.random()] of the handler *)
  random : nat → PrimFloat.float;
}.

Inductive ConsoleLevel := levelLog | levelWarn | levelError.

(** The second argument of a console call. *)
Inductive ConsoleArg :=
| NoArg
| ArgText (s : string)
| ArgUndefined
| ArgError (e : JSError).

Inductive Output :=
| Sync (e : Effect)                                     (* an effect of a synchronous handler *)
| Console (level : ConsoleLevel) (message : string) (arg : ConsoleArg)
| Alert (message : string)                              (* alert(message) *)
| AddEventListener (device : BluetoothDevice) (type : string)
                                                        (* the listener is onDisconnected *)
| RequestPermission                                     (* Notification.requestPermission() *)
| Call (c : ExternalCall).

Inductive Outcome (A : Type) :=
| Returned (a : A)
| Threw (error : JSError).
Arguments Returned {A} a.
Arguments Threw {A} error.

(** The value caught when a synchronous handler throws: the model's only
    synchronous throw is a TypeError, kept with its description. *)
Definition errorOfSync (description : string) : JSError :=
  {| errorName := "TypeError"; errorMessage := description |}.

#[global] Instance JSError_eq_dec : EqDecision JSError.
Proof. solve_decision. Defined.
#[global] Instance UUID_eq_dec : EqDecision UUID.
Proof. solve_decision. Defined.

Section Handlers.
Context {J : JSNumber} {F : JSFormat}.

(** An asynchronous handler, run to completion: besides what [M] does it
    asks the world and may catch what is thrown. *)
Definition Async (A : Type) : Type :=
  World → Browser → AppState → Outcome A * AppState * list Output.

Definition aret {A} (a : A) : Async A := λ _ _ st, (Returned a, st, []).

Definition abind {A B} (m : Async A) (k : A → Async B) : Async B := λ w b st,
  match m w b st with
  | (Returned a, st1, log1) =>
      let '(r, st2, log2) := k a w b st1 in (r, st2, log1 ++ log2)
  | (Threw e, st1, log1) => (Threw e, st1, log1)
  end.

#[global] Instance Async_ret : MRet Async := @aret.
#[global] Instance Async_bind : MBind Async := λ A B k m, abind m k.

Definition athrow {A} (e : JSError) : Async A := λ _ _ st, (Threw e, st, []).

(** [try { body } catch (e) { handler e }] *)
Definition tryCatch {A} (body : Async A) (handler : JSError → Async A) : Async A :=
  λ w b st,
    match body w b st with
    | (Returned a, st1, log1) => (Returned a, st1, log1)
    | (Threw e, st1, log1) =>
        let '(r, st2, log2) := handler e w b st1 in (r, st2, log1 ++ log2)
    end.

Definition output (o : Output) : Async unit := λ _ _ st, (Returned (), st, [o]).
Definition appState : Async AppState := λ _ _ st, (Returned st, st, []).
Definition theBrowser : Async Browser := λ _ b st, (Returned b, st, []).

(** Running a synchronous handler inside an asynchronous one. *)
Definition liftM {A} (m : M A) : Async A := λ _ b st,
  match m b st with
  | (Normal a, st1, log1) => (Returned a, st1, Sync <$> log1)
  | (Throw d, st1, log1) => (Threw (errorOfSync d), st1, Sync <$> log1)
  end.

Definition liftCompletion {A} (c : Completion A) : Async A :=
  match c with
  | Normal a => aret a
  | Throw d => athrow (errorOfSync d)
  end.

(** [await] of a call: the call is made, the world settles it. *)
Definition await {A} (c : ExternalCall) (answer : World → Settled A) : Async A :=
  λ w _ st,
    (match answer w with
     | Fulfilled a => Returned a
     | Rejected e => Threw e
     end, st, [Call c]).

(** [Math.random()], the [n]-th of the handler. *)
Definition mathRandom (n : nat) : Async PrimFloat.float :=
  λ w _ st, (Returned (random w n), st, [Call CallRandom]).

(** [console.log(message)] *)
Definition consoleLog (message : string) : Async unit :=
  output (Sync (ConsoleLog message)).

(** What running an asynchronous handler leaves behind. *)
Definition outcome {A} (m : Async A) (w : World) (b : Browser) (st : AppState) : Outcome A :=
  (m w b st).1.1.
Definition after {A} (m : Async A) (w : World) (b : Browser) (st : AppState) : AppState :=
  (m w b st).1.2.
Definition outputs {A} (m : Async A) (w : World) (b : Browser) (st : AppState) : list Output :=
  (m w b st).2.

(** *** Request Notification Permission on Mount *)

Definition requestPermissionOnMount : Async unit :=
  b ← theBrowser;
  if notificationInWindow b && negb (bool_decide (permission b = granted))
  then output RequestPermission
  else mret ().

(** *** Bluetooth: Fetch Data *)

(** [fetchReading] as created in a render whose [isSimulationMode] was
    [simulation]: the flag is the closure's, [characteristicRef.current] is
    read when the call runs. *)
#[warnings="-inexact-float"]
Definition fetchReadingIn (simulation : bool) : Async unit :=
  if simulation then
    (* Simulation Logic *)
    r ← mathRandom 0;
    simTemp ← liftCompletion (JSFloat.toFixed 1 (36 + r * 1.5)%float);
    rand ← mathRandom 1;
    let simMoisture := "DRY" in
    let simMoisture :=
      if (0.8 <? rand)%float then "WET"
      else if (0.6 <? rand)%float then "MIXED"
      else simMoisture in
    liftM (processData (simTemp +:+ "," +:+ simMoisture))
  else
    st ← appState;
    match characteristicRef st with
    | None => mret ()
    | Some characteristic =>
        tryCatch
          (dataString ← await (CallReadValue characteristic)
                              (λ w, readValue w characteristic);
           output (Console levelLog "Data Received:" (ArgText dataString));;
           liftM (processData dataString))
          (λ err, output (Console levelError "Read Error:" (ArgError err)))
          (* Optional: attempt reconnect or ignore *)
    end.

(** [fetchReading] of the current render. *)
Definition fetchReading : Async unit :=
  st ← appState;
  fetchReadingIn (isSimulationMode st).

(** *** Bluetooth: Connect *)

Definition serviceNotFoundLog : string :=
  "Service not found. Listing available services is not possible in browser due to security, but ensure your Arduino is broadcasting service: 0000ffe0 or FFE0".

Definition serviceNotFoundMessage : string :=
  "Service Not Found. Please ensure you selected the correct 'HMSoft' or 'BT05' device, and not your computer/headphones.".

Definition characteristicNotFoundMessage : string :=
  "Characteristic Not Found. The device has the service but not the data characteristic (FFE1).".

(** The message the catch clause of [connectBluetooth] alerts. *)
Definition failureMessage (error : JSError) : string :=
  let msg := "Failed to connect." in
  if decide (errorName error = "NotFoundError") then "User cancelled the selection."
  else if negb (String.eqb (errorMessage error) "") then errorMessage error
  else msg.

(** [connectBluetooth] is created in a render and calls the [fetchReading]
    of that render: the simulation flag it reads is the one of the state the
    click found. *)
Definition connectBluetooth : Async unit :=
  clicked ← appState;
  tryCatch
    (liftM (setConnectionStatus connecting);;
     liftM (setIsSimulationMode false);;
     consoleLog "Requesting Bluetooth Device...";;
     device ← await (CallRequestDevice true [SERVICE_UUID_LONG; SERVICE_UUID_SHORT])
                    requestDevice;
     output (Console levelLog "Device selected:"
               (from_option ArgText ArgUndefined (deviceName device)));;
     liftM (setDeviceRef (Some device));;
     output (AddEventListener device "gattserverdisconnected");;
     consoleLog "Connecting to GATT Server...";;
     server ← await (CallGattConnect device) (λ w, gattConnect w device);
     consoleLog "Getting Primary Service...";;
     service ←
       tryCatch
         (* Try long UUID first *)
         (await (CallGetPrimaryService server SERVICE_UUID_LONG)
                (λ w, getPrimaryService w server SERVICE_UUID_LONG))
         (λ e,
            output (Console levelWarn "Long UUID not found, trying short UUID..."
                      (ArgError e));;
            tryCatch
              (await (CallGetPrimaryService server SERVICE_UUID_SHORT)
                     (λ w, getPrimaryService w server SERVICE_UUID_SHORT))
              (λ e2,
                 output (Console levelError serviceNotFoundLog NoArg);;
                 athrow (newError serviceNotFoundMessage)));
     consoleLog "Getting Characteristic...";;
     characteristic ←
       tryCatch
         (await (CallGetCharacteristic service CHARACTERISTIC_UUID_LONG)
                (λ w, getCharacteristic w service CHARACTERISTIC_UUID_LONG))
         (λ e,
            tryCatch
              (await (CallGetCharacteristic service CHARACTERISTIC_UUID_SHORT)
                     (λ w, getCharacteristic w service CHARACTERISTIC_UUID_SHORT))
              (λ e2, athrow (newError characteristicNotFoundMessage)));
     liftM (setCharacteristicRef (Some characteristic));;
     liftM (setConnectionStatus connected);;
     consoleLog "Connected successfully!";;
     (* Perform immediate read upon connection *)
     fetchReadingIn (isSimulationMode clicked))
    (λ error,
       output (Console levelError "Bluetooth Connection Error:" (ArgError error));;
       liftM (setConnectionStatus disconnected);;
       output (Alert (failureMessage error))).

(** *** The interval callback with the read it starts

    When the count is 1 or less the updater calls [fetchReading()] and
    returns 5.  The device read is awaited, so what it delivers is processed
    after the updater has returned. *)
Definition pollStep : Async unit :=
  st ← appState;
  liftM timerTick;;
  if bool_decide (nextUpdateIn st ≤ 1) then fetchReading else mret ().

(** [n] firings of the interval callback with nothing else in between; the
    effects of all of them, in order. *)
Fixpoint ticks (n : nat) (b : Browser) (st : AppState) : AppState * list Effect :=
  match n with
  | O => (st, [])
  | S n' =>
      let '(_, st1, log1) := timerTick b st in
      let '(st2, log2) := ticks n' b st1 in
      (st2, log1 ++ log2)
  end.

(** *** HistoryChart.tsx *)

Record ChartPoint := {
  time : string;
  temp : number;
  moistureLevel : PrimFloat.float;
}.

(** The point drawn for a reading. *)
Definition chartPoint (r : Reading) : ChartPoint :=
  let moistureVal := 0%float in
  let moistureVal :=
    if decide (moisture r = WET) then 1%float
    else if decide (moisture r = MIXED) then 0.5%float
    else moistureVal in
  {| time := toLocaleTimeString (timestamp r);
     temp := temperature r;
     moistureLevel := moistureVal |}.

(** Prepare data for display *)
Definition chartData (data : list Reading) : list ChartPoint :=
  sliceLast 10 (chartPoint <$> data).   (* Show last 10 readings *)

(** What [HistoryChart] renders: nothing ([null]) without data, otherwise a
    line chart of the points. *)
Definition HistoryChart (data : list Reading) : option (list ChartPoint) :=
  let chartData := chartData data in
  if (length chartData =? 0)%nat then None else Some chartData.

(** *** What [App] renders from its state

    The parts of the JSX that are computed from the state: the status line,
    the countdown, the connect button, the toggle, the alert banner, the
    moisture card and the chart. *)

Record View := {
  (** the text under "Device Status" *)
  statusText : string;
  (** the "Next Update" label, shown only when connected *)
  nextUpdate : option string;
  (** the connect button when shown: whether it is disabled, and its label *)
  connectButton : option (bool * string);
  (** the label of the simulation toggle *)
  toggleLabel : string;
  (** the alert banner when shown *)
  banner : option string;
  moistureColor : string;
  moistureText : string;
  chart : option (list ChartPoint);
}.

Definition statusName (s : ConnectionStatus) : string :=
  match s with
  | disconnected => "disconnected"
  | connecting => "connecting"
  | connected => "connected"
  end.

Definition render (st : AppState) : View := {|
  statusText := if isSimulationMode st then "Simulation Mode"
                else statusName (connectionStatus st);
  nextUpdate := if decide (connectionStatus st = connected)
                then Some (formatTime (nextUpdateIn st)) else None;
  connectButton :=
    if decide (connectionStatus st ≠ connected)
    then Some (bool_decide (connectionStatus st = connecting),
               if decide (connectionStatus st = connecting) then "Connecting..."
               else "Connect to Device")
    else None;
  toggleLabel := if isSimulationMode st then "Disable Simulation" else "Enable Demo Mode";
  banner := match notification st with
            | Some message => if String.eqb message "" then None else Some message
            | None => None
            end;
  moistureColor := getMoistureColor (moisture <$> latestReading st);
  moistureText := getMoistureText (moisture <$> latestReading st);
  chart := HistoryChart (readings st);
|}.

(** *** The component and the world around it *)

(** The result of asking by the long UUID and, if that is rejected, by the
    short one. *)
Definition longThenShort {A} (long short : Settled A) : option A :=
  match long with
  | Fulfilled a => Some a
  | Rejected _ =>
      match short with
      | Fulfilled a => Some a
      | Rejected _ => None
      end
  end.

(** The world lets a connection through: a device is chosen, its GATT server
    connects, and the service and the characteristic are found under one of
    their two names. *)
Definition connects (w : World)
    (device : BluetoothDevice) (characteristic : BluetoothRemoteGATTCharacteristic) : Prop :=
  ∃ server service,
    requestDevice w = Fulfilled device
    ∧ gattConnect w device = Fulfilled server
    ∧ longThenShort (getPrimaryService w server SERVICE_UUID_LONG)
                    (getPrimaryService w server SERVICE_UUID_SHORT) = Some service
    ∧ longThenShort (getCharacteristic w service CHARACTERISTIC_UUID_LONG)
                    (getCharacteristic w service CHARACTERISTIC_UUID_SHORT)
        = Some characteristic.

Inductive Action :=
| Mounted                (* the component mounts *)
| ConnectClicked         (* "Connect to Device" *)
| SimulationClicked      (* the simulation toggle *)
| TimerElapsed           (* the interval elapses *)
| ReadStarted            (* a read requested by the timer runs *)
| DeviceDisconnected.    (* 'gattserverdisconnected' *)

Definition perform (a : Action) : Async unit :=
  match a with
  | Mounted => requestPermissionOnMount
  | ConnectClicked => connectBluetooth
  | SimulationClicked => liftM toggleSimulation
  | TimerElapsed => liftM (dispatch TimerFired)
  | ReadStarted => fetchReading
  | DeviceDisconnected => liftM onDisconnected
  end.

Fixpoint operate (trace : list (World * Browser * Action)) (st : AppState) : AppState :=
  match trace with
  | [] => st
  | (w, b, a) :: rest => operate rest (after (perform a) w b st)
  end.

End Handlers.

(** A world for the examples: the device is found and everything answers. *)
Definition sensor : BluetoothDevice := {| deviceId := "hm10"; deviceName := Some "HMSoft" |}.

Definition friendlyWorld (payload : string) : World := {|
  requestDevice := Fulfilled sensor;
  gattConnect := λ _, Fulfilled {| serverHandle := 1 |};
  getPrimaryService := λ _ _, Fulfilled {| serviceHandle := 2 |};
  getCharacteristic := λ _ _, Fulfilled {| handle := 3 |};
  readValue := λ _, Fulfilled payload;
  random := λ n, match n with O => 0.5%float | _ => 0.75%float end;
|}.

(** A world for the examples: the user dismisses the device chooser. *)
Definition cancellingWorld : World := {|
  requestDevice := Rejected {| errorName := "NotFoundError";
                               errorMessage := "User cancelled the requestDevice() chooser." |};
  gattConnect := λ _, Rejected (newError "unreachable");
  getPrimaryService := λ _ _, Rejected (newError "unreachable");
  getCharacteristic := λ _ _, Rejected (newError "unreachable");
  readValue := λ _, Rejected (newError "unreachable");
  random := λ _, 0%float;
|}.

(** Host formatting for the examples. *)
Definition exampleFormat : JSFormat := {|
  largeToString := λ _, "1e+21";
  toLocaleTimeString := λ ms, pretty ms;
|}.

(** ** Notions used in the statements *)

(** The seconds field of the countdown label, for a remainder [r]. *)
Definition secondsField (r : nat) : string :=
  JSText.padStart 2 "0" (pretty (Z.of_nat r)).

(** The messages alerted, in order. *)
Definition alerts (log : list Output) : list string :=
  omap (λ o, match o with Alert message => Some message | _ => None end) log.

(** The calls made to the outside, in order. *)
Definition calls (log : list Output) : list ExternalCall :=
  omap (λ o, match o with Call c => Some c | _ => None end) log.

(** What a run of [fetchReading] can put out. *)
Definition fetchOutput (o : Output) : Prop :=
  match o with
  | Call CallRandom | Call (CallReadValue _) | Console _ _ _ | Sync _ => True
  | _ => False
  end.

(** What holds of the state between two handlers, once the component is
    mounted. *)
Definition consistent `{JSNumber} (st : AppState) : Prop :=
  (length (readings st) ≤ 20)%nat
  ∧ latestReading st = last (readings st)
  ∧ 0 ≤ nextUpdateIn st ≤ 300
  ∧ (∀ r, r ∈ readings st → moisture r ≠ UNKNOWN)
  ∧ (connectionStatus st = connected → isSimulationMode st = false →
     is_Some (deviceRef st) ∧ is_Some (characteristicRef st)).

(** ** States and worlds for the examples *)

(** Connected to [sensor], the count run out. *)
Definition connectedState : @AppState Decimal.decimalNumber := {|
  connectionStatus := connected;
  readings := [];
  latestReading := None;
  notification := None;
  nextUpdateIn := 1;
  isSimulationMode := false;
  deviceRef := Some sensor;
  characteristicRef := Some {| handle := 3 |};
|}.

(** Simulation mode, just switched on. *)
Definition simulatingState : @AppState Decimal.decimalNumber := {|
  connectionStatus := connected;
  readings := [];
  latestReading := None;
  notification := None;
  nextUpdateIn := 1;
  isSimulationMode := true;
  deviceRef := None;
  characteristicRef := None;
|}.

(** The device connects but its reads fail. *)
Definition failingReadWorld : World := {|
  requestDevice := Fulfilled sensor;
  gattConnect := λ _, Fulfilled {| serverHandle := 1 |};
  getPrimaryService := λ _ _, Fulfilled {| serviceHandle := 2 |};
  getCharacteristic := λ _ _, Fulfilled {| handle := 3 |};
  readValue := λ _, Rejected (newError "GATT operation failed for unknown reason.");
  random := λ _, 0%float;
|}.

(** * Properties *)

(** ** Strings *)
Lemma append_nil_l (b : string) : "" +:+ b = b.
Proof. reflexivity. Qed.

Lemma append_cons (x : ascii) (a b : string) : String x a +:+ b = String x (a +:+ b).
Proof. reflexivity. Qed.

(** Unfolds [+:+] on explicit heads, then computes. *)
Ltac ssimpl :=
  repeat progress (rewrite ?append_cons, ?append_nil_l; cbn).

Section StringFacts.
Import JSString.

Lemma append_assoc (a b c : string) : (a +:+ b) +:+ c = a +:+ (b +:+ c).
Proof.
  induction a as [|x a IH]; [reflexivity|].
  rewrite !append_cons. by rewrite IH.
Qed.

Lemma append_nil_r (a : string) : a +:+ "" = a.
Proof.
  induction a as [|x a IH]; [reflexivity|].
  rewrite append_cons. by rewrite IH.
Qed.

Lemma hasChar_app (c : ascii) (a b : string) :
  hasChar c (a +:+ b) = hasChar c a || hasChar c b.
Proof.
  induction a as [|x a IH]; ssimpl; [reflexivity|].
  rewrite IH. by rewrite orb_assoc.
Qed.

(** [split] is the first piece followed by the split of what follows the
    first separator. *)
Lemma split_unfold (sep : ascii) (s : string) :
  split sep s =
    firstPiece sep s :: (if hasChar sep s then split sep (afterFirst sep s) else []).
Proof.
  induction s as [|c s IH]; cbn; [reflexivity|].
  destruct (Ascii.eqb c sep); cbn; [reflexivity|].
  rewrite IH. reflexivity.
Qed.

Lemma split_length_pos (sep : ascii) (s : string) : (1 ≤ length (split sep s))%nat.
Proof. rewrite split_unfold. cbn. lia. Qed.

Lemma split_length_hasChar (sep : ascii) (s : string) :
  hasChar sep s = true ↔ (2 ≤ length (split sep s))%nat.
Proof.
  rewrite split_unfold. destruct (hasChar sep s); cbn.
  - pose proof (split_length_pos sep (afterFirst sep s)). split; [lia | done].
  - split; [done | lia].
Qed.

Lemma split_lookup_0 (sep : ascii) (s : string) :
  split sep s !! 0%nat = Some (firstPiece sep s).
Proof. rewrite split_unfold. reflexivity. Qed.

Lemma split_lookup_1 (sep : ascii) (s : string) :
  hasChar sep s = true →
  split sep s !! 1%nat = Some (firstPiece sep (afterFirst sep s)).
Proof.
  intros H. rewrite split_unfold, H. cbn. apply split_lookup_0.
Qed.

Lemma split_no_sep (sep : ascii) (s : string) :
  hasChar sep s = false → split sep s = [s].
Proof.
  intros H. rewrite split_unfold, H. f_equal.
  induction s as [|c s IH]; cbn in *; [reflexivity|].
  apply orb_false_iff in H as [Hc Hs]. rewrite Hc. by rewrite IH.
Qed.

Lemma firstPiece_no_sep (sep : ascii) (s : string) :
  hasChar sep s = false → firstPiece sep s = s.
Proof.
  intros H. pose proof (split_no_sep sep s H) as E.
  rewrite split_unfold, H in E. congruence.
Qed.

(** The first piece of [u,y] is the first piece of [u]. *)
Lemma firstPiece_app_sep (sep : ascii) (u y : string) :
  firstPiece sep (u +:+ String sep y) = firstPiece sep u.
Proof.
  induction u as [|c u IH]; ssimpl.
  - by rewrite Ascii.eqb_refl.
  - destruct (Ascii.eqb c sep); [reflexivity | by rewrite IH].
Qed.



Lemma afterFirst_app_sep (sep : ascii) (t y : string) :
  afterFirst sep (t +:+ String sep y) =
    if hasChar sep t then afterFirst sep t +:+ String sep y else y.
Proof.
  induction t as [|c t IH]; ssimpl.
  - by rewrite Ascii.eqb_refl.
  - destruct (Ascii.eqb c sep); ssimpl; [reflexivity | exact IH].
Qed.

(** The second field of [t,y]: found inside [t] when [t] has a separator
    of its own, and otherwise the first piece of [y]. *)
Lemma split_second_field (sep : ascii) (t y : string) :
  split sep (t +:+ String sep y) !! 1%nat =
    Some (if hasChar sep t then firstPiece sep (afterFirst sep t)
          else firstPiece sep y).
Proof.
  rewrite split_lookup_1.
  2:{ rewrite hasChar_app. cbn. rewrite Ascii.eqb_refl. by rewrite orb_true_r. }
  rewrite afterFirst_app_sep.
  destruct (hasChar sep t); [|reflexivity].
  by rewrite firstPiece_app_sep.
Qed.

(** *** Code units *)






Lemma sameLetter_refl (c : ascii) : sameLetter c c = true.
Proof. unfold sameLetter. by rewrite Ascii.eqb_refl. Qed.





(** *** Trimming *)







(** *** Case variants *)

Lemma caseVariant_refl (x : string) : caseVariant x x = true.
Proof. induction x as [|c x IH]; cbn; [done|]. by rewrite sameLetter_refl. Qed.







(** *** Substrings *)

Lemma prefix_spec (p s : string) :
  String.prefix p s = true ↔ ∃ b, s = p +:+ b.
Proof.
  revert s. induction p as [|c p IH]; intros s.
  - split; [intros _; by exists s | by destruct s].
  - destruct s as [|d s]; cbn.
    + split; [done | intros [b Hb]; by rewrite append_cons in Hb].
    + destruct (ascii_dec c d) as [->|Hne].
      * rewrite IH. split; intros [b Hb]; exists b.
        -- rewrite append_cons. by rewrite Hb.
        -- rewrite append_cons in Hb. congruence.
      * split; [done|]. intros [b Hb]. rewrite append_cons in Hb. congruence.
Qed.

Lemma includes_spec (pat s : string) :
  includes pat s = true ↔ occursIn pat s.
Proof.
  unfold occursIn. split.
  - induction s as [|c s IH].
    + cbn [includes]. rewrite orb_false_r. intros [b Hb]%prefix_spec. by exists "", b.
    + cbn [includes]. intros [[b Hb]%prefix_spec | Hs]%orb_true_iff.
      * by exists "", b.
      * destruct (IH Hs) as (a & b & ->). exists (String c a), b.
        by rewrite append_cons.
  - intros (a & b & ->). induction a as [|c a IH].
    + rewrite append_nil_l.
      assert (String.prefix pat (pat +:+ b) = true) as Hp
        by (apply prefix_spec; by exists b).
      destruct (pat +:+ b); cbn [includes]; by rewrite Hp.
    + rewrite append_cons. cbn [includes]. rewrite IH. by rewrite orb_true_r.
Qed.
End StringFacts.

Arguments sliceLast : simpl never.

(** Settles the comparisons of a status with the enum's members. *)
Ltac decide_status :=
  repeat match goal with
         | |- context [@decide (@eq MoistureStatus ?a ?b) _] =>
             destruct (decide (a = b)); try congruence
         end.

Section Run.
Context {J : JSNumber}.
Import JSString.

Lemma triggerNotification_run (message : string) (b : Browser) (st : AppState) :
  triggerNotification message b st =
    (Normal (),
     {| connectionStatus := connectionStatus st; readings := readings st;
        latestReading := latestReading st; notification := Some message;
        nextUpdateIn := nextUpdateIn st; isSimulationMode := isSimulationMode st;
        deviceRef := deviceRef st; characteristicRef := characteristicRef st |},
     (if notificationInWindow b && bool_decide (permission b = granted)
      then [NewNotification "SilicaSense Alert" message "/icon.png"] else [])
     ++ (if canVibrate b then [Vibrate [200; 100; 200; 100; 500]] else [])).
Proof.
  unfold triggerNotification, mbind, M_bind, bind, mret, M_ret, ret, browser,
    setNotification, modify, emit.
  cbn.
  destruct (notificationInWindow b && bool_decide (permission b = granted));
    destruct (canVibrate b); reflexivity.
Qed.

Lemma processData_run (dataString : string) (b : Browser) (st : AppState) :
  ∃ temp moist,
    let parts := split "," dataString in
    let r := {| id := pretty (dateNow b); timestamp := newDate b;
                temperature := temp; moisture := moist |} in
    ((2 ≤ length parts)%nat
       ∧ temp = parseFloatAt parts 0
       ∧ (∃ p1, parts !! 1%nat = Some p1
           ∧ moist = (if decide (toUpperCase (trim p1) = "WET") then WET
                      else if decide (toUpperCase (trim p1) = "MIXED") then MIXED
                      else DRY))
     ∨ (length parts < 2)%nat
       ∧ temp = logicalOr (parseFloat dataString) (numLit 0)
       ∧ moist = (if includes "WET" dataString then WET
                  else if includes "MIXED" dataString then MIXED
                  else DRY))
    ∧ processData dataString b st =
        (Normal (),
         {| connectionStatus := connectionStatus st;
            readings := sliceLast 20 (readings st ++ [r]);
            latestReading := Some r;
            notification := match moist with WET => Some alertMessage | _ => None end;
            nextUpdateIn := match moist with WET => 30 | MIXED => 120 | _ => 300 end;
            isSimulationMode := isSimulationMode st;
            deviceRef := deviceRef st; characteristicRef := characteristicRef st |},
         match moist with
         | WET => effects (triggerNotification alertMessage) b st
         | _ => []
         end).
Proof.
  unfold processData.
  destruct (bool_decide (2 ≤ length (split "," dataString))%nat) eqn:Hlen.
  - apply bool_decide_eq_true in Hlen.
    destruct (split "," dataString !! 1%nat) as [p1|] eqn:Hp1.
    2:{ apply lookup_ge_None in Hp1. lia. }
    eexists _, _. cbn zeta. split.
    + left. split; [exact Hlen|]. split; [reflexivity|].
      exists p1. split; [reflexivity|]. reflexivity.
    + unfold trimAt. rewrite Hp1.
      unfold effects. rewrite !triggerNotification_run.
      unfold mbind, M_bind, bind, mret, M_ret, ret, browser, setLatestReading,
        setReadings, setNotification, setNextUpdateIn, modify.
      cbn.
      destruct (decide (toUpperCase (trim p1) = "WET"));
        [|destruct (decide (toUpperCase (trim p1) = "MIXED"))];
        decide_status; cbn; rewrite ?triggerNotification_run; cbn;
        rewrite ?app_nil_r; reflexivity.
  - apply bool_decide_eq_false in Hlen.
    eexists _, _. cbn zeta. split.
    + right. split; [lia|]. split; reflexivity.
    + unfold effects. rewrite !triggerNotification_run.
      unfold mbind, M_bind, bind, mret, M_ret, ret, browser, setLatestReading,
        setReadings, setNotification, setNextUpdateIn, modify.
      cbn.
      destruct (includes "WET" dataString); [|destruct (includes "MIXED" dataString)];
        decide_status; cbn; rewrite ?triggerNotification_run; cbn;
        rewrite ?app_nil_r; reflexivity.
Qed.

Lemma timerTick_run (b : Browser) (st : AppState) :
  timerTick b st =
    (Normal (),
     {| connectionStatus := connectionStatus st; readings := readings st;
        latestReading := latestReading st; notification := notification st;
        nextUpdateIn := if bool_decide (nextUpdateIn st ≤ 1) then 5
                        else nextUpdateIn st - 1;
        isSimulationMode := isSimulationMode st;
        deviceRef := deviceRef st; characteristicRef := characteristicRef st |},
     if bool_decide (nextUpdateIn st ≤ 1) then [FetchReading] else []).
Proof.
  unfold timerTick, tickUpdater, mbind, M_bind, bind, mret, M_ret, ret, getState,
    setNextUpdateIn, modify, emit.
  cbn. destruct (bool_decide (nextUpdateIn st ≤ 1)); reflexivity.
Qed.


(** *** The history buffer *)

Lemma sliceLast_length {A} (n : nat) (a : list A) :
  (length (sliceLast n a) ≤ n)%nat.
Proof. unfold sliceLast. rewrite length_drop. lia. Qed.

Lemma sliceLast_short {A} (n : nat) (a : list A) :
  (length a ≤ n)%nat → sliceLast n a = a.
Proof. intros H. unfold sliceLast. by replace (length a - n)%nat with 0%nat by lia. Qed.

Lemma sliceLast_snoc_full {A} (n : nat) (a : list A) (x : A) :
  length a = n → (0 < n)%nat → sliceLast n (a ++ [x]) = drop 1 a ++ [x].
Proof.
  intros H Hn. unfold sliceLast. rewrite length_app. cbn.
  replace (length a + 1 - n)%nat with 1%nat by lia.
  apply drop_app_le. lia.
Qed.

Lemma sliceLast_last {A} (n : nat) (a : list A) (x : A) :
  (0 < n)%nat → last (sliceLast n (a ++ [x])) = Some x.
Proof.
  intros Hn. unfold sliceLast. rewrite length_app. cbn.
  rewrite drop_app_le by lia. apply last_snoc.
Qed.

(** Slicing early does not change what a later slice keeps. *)
Lemma sliceLast_app {A} (n : nat) (a x : list A) :
  sliceLast n (sliceLast n a ++ x) = sliceLast n (a ++ x).
Proof.
  destruct (decide (length a ≤ n)%nat) as [Hle|Hgt].
  - by rewrite (sliceLast_short n a).
  - unfold sliceLast. rewrite !length_app, length_drop.
    replace (length a - (length a - n) + length x - n)%nat with (length x) by lia.
    replace (length a + length x - n)%nat with ((length a - n) + length x)%nat by lia.
    rewrite <- drop_drop. f_equal. rewrite drop_app_le by lia. reflexivity.
Qed.

Lemma moisture_run (dataString : string) (b : Browser) (st : AppState) :
  ∃ r,
    latestReading (exec (processData dataString) b st) = Some r
    ∧ (moisture r = WET ∨ moisture r = MIXED ∨ moisture r = DRY).
Proof.
  destruct (processData_run dataString b st) as (temp & moist & Hcase & Hrun).
  cbn zeta in *. eexists. unfold exec. rewrite Hrun. cbn.
  split; [reflexivity|]. cbn.
  destruct Hcase as [(_ & _ & p1 & _ & ->) | (_ & _ & ->)].
  - repeat case_decide; auto.
  - destruct (includes "WET" dataString), (includes "MIXED" dataString); auto.
Qed.

Lemma cadence_run (dataString : string) (b : Browser) (st : AppState) :
  nextUpdateIn (exec (processData dataString) b st) = 30
  ∨ nextUpdateIn (exec (processData dataString) b st) = 120
  ∨ nextUpdateIn (exec (processData dataString) b st) = 300.
Proof.
  destruct (processData_run dataString b st) as (temp & moist & _ & Hrun).
  cbn zeta in Hrun. unfold exec. rewrite Hrun. cbn. destruct moist; auto.
Qed.

(** In every state the component can reach, the buffer holds at most 20
    readings and the countdown lies between 0 and 300. *)
Lemma run_invariant (trace : list (Browser * Event)) (st : AppState) :
  (length (readings st) ≤ 20)%nat ∧ 0 ≤ nextUpdateIn st ≤ 300 →
  (length (readings (run trace st)) ≤ 20)%nat ∧ 0 ≤ nextUpdateIn (run trace st) ≤ 300.
Proof.
  revert st. induction trace as [|[b e] rest IH]; intros st [Hlen Hcount]; [done|].
  cbn [run]. apply IH. destruct e as [dataString | | |].
  - destruct (processData_run dataString b st) as (temp & moist & _ & Hrun).
    cbn zeta in Hrun. unfold exec, dispatch. rewrite Hrun. cbn.
    split; [apply sliceLast_length | destruct moist; lia].
  - unfold exec, dispatch, mbind, M_bind, bind, getState. cbn.
    destruct (timerRuns st); [|done].
    rewrite timerTick_run. cbn. split; [done|]. case_bool_decide; lia.
  - cbn. done.
  - unfold exec, dispatch, toggleSimulation, mbind, M_bind, bind, getState. cbn.
    destruct (isSimulationMode st); cbn; [split; [lia | done] | split; [done | lia]].
Qed.

Lemma reachable_invariant (trace : list (Browser * Event)) :
  (length (readings (run trace initialState)) ≤ 20)%nat
  ∧ 0 ≤ nextUpdateIn (run trace initialState) ≤ 300.
Proof. apply run_invariant. cbn. lia. Qed.

Lemma processAll_readings (inputs : list (Browser * string)) (st : AppState) :
  (length (readings st) ≤ 20)%nat →
  readings (processAll inputs st) = sliceLast 20 (readings st ++ produced inputs st).
Proof.
  revert st. induction inputs as [|[b dataString] rest IH]; intros st Hst; cbn.
  - rewrite app_nil_r. by rewrite sliceLast_short.
  - destruct (processData_run dataString b st) as (temp & moist & _ & Hrun).
    cbn zeta in Hrun. unfold exec in *. rewrite Hrun in *. cbn.
    rewrite IH by (cbn; apply sliceLast_length).
    cbn. rewrite sliceLast_app. by rewrite <- app_assoc.
Qed.
End Run.

(** ** The claims *)
Section Claims.
Context {J : JSNumber}.
Import JSString.


(** C2. After every processed reading the countdown is set from a fixed
    table keyed by the reading's moisture status: 30 for WET, 120 for MIXED,
    300 otherwise. *)
Theorem cadence_table (dataString : string) (b : Browser) (st : AppState) :
  ∃ r,
    latestReading (exec (processData dataString) b st) = Some r
    ∧ nextUpdateIn (exec (processData dataString) b st) =
        match moisture r with
        | WET => 30
        | MIXED => 120
        | _ => 300
        end.
Proof.
  destruct (processData_run dataString b st) as (temp & moist & _ & Hrun).
  cbn zeta in *. eexists. unfold exec. rewrite Hrun. cbn.
  split; [reflexivity|]. cbn. by destruct moist.
Qed.

(** C3, amended. [processData] takes the alert path exactly when the processed
    reading is WET.  The in-app banner holds the alert message if and only if
    the reading is WET.  The OS notification is raised if and only if the
    reading is WET, the Notification API is present and its permission is
    'granted'; the haptic feedback if and only if the reading is WET and
    [navigator.vibrate] is available: for a WET reading the effects are those
    of [triggerNotification].  For a MIXED or DRY reading the banner is
    cleared to null and nothing is raised. *)
Theorem alert_iff_wet (dataString : string) (b : Browser) (st : AppState) :
  let st' := exec (processData dataString) b st in
  let log := effects (processData dataString) b st in
  ∃ r,
    latestReading st' = Some r
    ∧ (notification st' = Some alertMessage ↔ moisture r = WET)
    ∧ (NewNotification "SilicaSense Alert" alertMessage "/icon.png" ∈ log
       ↔ moisture r = WET ∧ notificationInWindow b = true ∧ permission b = granted)
    ∧ (Vibrate [200; 100; 200; 100; 500] ∈ log
       ↔ moisture r = WET ∧ canVibrate b = true)
    ∧ (moisture r = WET → log = effects (triggerNotification alertMessage) b st)
    ∧ (moisture r ≠ WET →
       (moisture r = MIXED ∨ moisture r = DRY)
       ∧ notification st' = None
       ∧ log = []).
Proof.
  destruct (processData_run dataString b st) as (temp & moist & Hcase & Hrun).
  cbn zeta in *. eexists. unfold exec, effects in *. rewrite Hrun. cbn.
  split; [reflexivity|]. cbn.
  assert (moist = WET ∨ moist = MIXED ∨ moist = DRY) as Hm.
  { destruct (moisture_run dataString b st) as (r & Hr & Hm).
    unfold exec in Hr. rewrite Hrun in Hr. cbn in Hr. by injection Hr as <-. }
  destruct Hm as [-> | [-> | ->]]; cbn.
  - rewrite triggerNotification_run. cbn.
    destruct (notificationInWindow b), (canVibrate b); cbn;
      try case_bool_decide; cbn;
      rewrite ?elem_of_cons, ?elem_of_nil; intuition congruence.
  - rewrite ?elem_of_nil. intuition congruence.
  - rewrite ?elem_of_nil. intuition congruence.
Qed.

(** C4. The history buffer keeps the most recent 20 readings.  After every
    call of [processData] it holds at most 20 readings, is a suffix of the
    old buffer followed by the new reading, and ends with that reading; a
    buffer that was not full grows by one; a full buffer loses exactly its
    oldest entry.  Along any sequence of payloads, started from a buffer of at
    most 20 readings, the buffer is the last 20 of all readings in arrival
    order. *)
Theorem history_buffer (dataString : string) (b : Browser) (st : AppState) :
  let st' := exec (processData dataString) b st in
  ∃ r,
    latestReading st' = Some r
    ∧ (length (readings st') ≤ 20)%nat
    ∧ readings st' `suffix_of` (readings st ++ [r])
    ∧ last (readings st') = Some r
    ∧ ((length (readings st) < 20)%nat → readings st' = readings st ++ [r])
    ∧ (length (readings st) = 20%nat →
       ∃ oldest rest, readings st = oldest :: rest ∧ readings st' = rest ++ [r])
    ∧ (∀ inputs st0,
         (length (readings st0) ≤ 20)%nat →
         st = processAll inputs st0 →
         readings st' = sliceLast 20 (readings st0 ++ produced inputs st0 ++ [r])).
Proof.
  intros st'.
  destruct (processData_run dataString b st) as (temp & moist & _ & Hrun).
  cbn zeta in Hrun. subst st'. unfold exec. rewrite Hrun. cbn.
  eexists. split; [reflexivity|].
  split; [apply sliceLast_length|].
  split; [apply suffix_drop|].
  split; [apply sliceLast_last; lia|].
  split; [intros Hlt; apply sliceLast_short; rewrite length_app; cbn; lia|].
  split.
  - intros Hfull. destruct (readings st) as [|oldest rest] eqn:E; [done|].
    exists oldest, rest. split; [reflexivity|].
    rewrite sliceLast_snoc_full by (done || lia). reflexivity.
  - intros inputs st0 Hst0 ->. rewrite processAll_readings by done.
    rewrite sliceLast_app. by rewrite app_assoc.
Qed.

(** C5, amended. A reading's moisture status is one of the four values
    App.tsx computes with: DRY, MIXED, WET and UNKNOWN.  [processData] infers
    exactly three of them: every payload is classified WET, MIXED or DRY, each
    of the three is the status of some payload, and UNKNOWN, the initial value
    of the local variable, is the inferred status of no payload. *)
Theorem inferred_statuses :
  (∀ r : Reading,
      moisture r = DRY ∨ moisture r = MIXED ∨ moisture r = WET ∨ moisture r = UNKNOWN)
  ∧ (∀ dataString b st, ∃ r,
      latestReading (exec (processData dataString) b st) = Some r
      ∧ (moisture r = WET ∨ moisture r = MIXED ∨ moisture r = DRY)
      ∧ moisture r ≠ UNKNOWN)
  ∧ (∀ b st, ∃ r,
      latestReading (exec (processData "37.5,WET") b st) = Some r ∧ moisture r = WET)
  ∧ (∀ b st, ∃ r,
      latestReading (exec (processData "37.5,MIXED") b st) = Some r ∧ moisture r = MIXED)
  ∧ (∀ b st, ∃ r,
      latestReading (exec (processData "37.5,DRY") b st) = Some r ∧ moisture r = DRY).
Proof.
  split; [intros r; destruct (moisture r); auto|].
  split.
  { intros dataString b st.
    destruct (processData_run dataString b st) as (temp & moist & Hcase & Hrun).
    cbn zeta in *. eexists. unfold exec. rewrite Hrun. cbn.
    split; [reflexivity|]. cbn.
    assert (moist = WET ∨ moist = MIXED ∨ moist = DRY) as Hm.
    { destruct (moisture_run dataString b st) as (r & Hr & Hm).
      unfold exec in Hr. rewrite Hrun in Hr. cbn in Hr. by injection Hr as <-. }
    split; [exact Hm|]. destruct Hm as [-> | [-> | ->]]; done. }
  repeat split; intros b st;
    match goal with
    | |- context [processData ?s] =>
        destruct (processData_run s b st) as (temp & moist & Hcase & Hrun)
    end;
    cbn zeta in *; eexists; unfold exec; rewrite Hrun; cbn;
    (split; [reflexivity|]); cbn;
    (destruct Hcase as [(_ & _ & p1 & Hp1 & ->) | (Hlt & _)];
     [|vm_compute in Hlt; lia]);
    vm_compute in Hp1; injection Hp1 as <-; reflexivity.
Qed.

(** C6. On a tick with more than 1 second remaining the count goes down by
    exactly 1 and no read is requested.  A read is requested only on a tick
    with 1 or less remaining; on that tick it is requested once and the count
    is reset to 5, which stands until [processData] replaces it by the
    cadence of the fetched reading.  A tick changes nothing but the count. *)
Theorem countdown_tick (b : Browser) (st : AppState) :
  let st' := exec timerTick b st in
  let log := effects timerTick b st in
  (1 < nextUpdateIn st → nextUpdateIn st' = nextUpdateIn st - 1 ∧ log = [])
  ∧ (FetchReading ∈ log → nextUpdateIn st ≤ 1)
  ∧ (nextUpdateIn st ≤ 1 → nextUpdateIn st' = 5 ∧ log = [FetchReading])
  ∧ (∀ dataString b',
       nextUpdateIn (exec (processData dataString) b' st') ∈ [30; 120; 300])
  ∧ completion timerTick b st = Normal ()
  ∧ connectionStatus st' = connectionStatus st
  ∧ readings st' = readings st
  ∧ latestReading st' = latestReading st
  ∧ notification st' = notification st
  ∧ isSimulationMode st' = isSimulationMode st
  ∧ deviceRef st' = deviceRef st
  ∧ characteristicRef st' = characteristicRef st.
Proof.
  intros st' log.
  split; [|split; [|split; [|split]]].
  4:{ intros dataString b'.
      destruct (cadence_run dataString b' st') as [-> | [-> | ->]];
        repeat constructor. }
  all: subst st' log; unfold exec, effects, completion;
    rewrite timerTick_run; cbn.
  - intros H. rewrite bool_decide_eq_false_2 by lia. done.
  - case_bool_decide; [done|]. by intros ?%elem_of_nil.
  - intros H. rewrite bool_decide_eq_true_2 by lia. done.
  - repeat split; reflexivity.
Qed.

(** C7. On the disconnect event the handler sets the connection status to
    'disconnected', clears the device and characteristic references to null
    and sets the notification to "Device Disconnected"; it logs the event and
    leaves the rest of the state as it was. *)
Theorem onDisconnected_teardown (b : Browser) (st : AppState) :
  let st' := exec onDisconnected b st in
  connectionStatus st' = disconnected
  ∧ deviceRef st' = None
  ∧ characteristicRef st' = None
  ∧ notification st' = Some "Device Disconnected"
  ∧ completion onDisconnected b st = Normal ()
  ∧ effects onDisconnected b st = [ConsoleLog "Device disconnected"]
  ∧ readings st' = readings st
  ∧ latestReading st' = latestReading st
  ∧ nextUpdateIn st' = nextUpdateIn st
  ∧ isSimulationMode st' = isSimulationMode st.
Proof. repeat split; reflexivity. Qed.

(** C10. Toggling simulation mode off sets the connection status to
    'disconnected', empties the history buffer and clears the latest reading,
    and leaves the countdown as it was; toggling it on sets the connection
    status to 'connected' and the countdown to 1, and leaves the history
    buffer and the latest reading as they were. *)
Theorem toggleSimulation_frame (b : Browser) (st : AppState) :
  let st' := exec toggleSimulation b st in
  (isSimulationMode st = true →
     isSimulationMode st' = false
     ∧ connectionStatus st' = disconnected
     ∧ readings st' = []
     ∧ latestReading st' = None
     ∧ nextUpdateIn st' = nextUpdateIn st)
  ∧ (isSimulationMode st = false →
     isSimulationMode st' = true
     ∧ connectionStatus st' = connected
     ∧ nextUpdateIn st' = 1
     ∧ readings st' = readings st
     ∧ latestReading st' = latestReading st)
  ∧ notification st' = notification st
  ∧ deviceRef st' = deviceRef st
  ∧ characteristicRef st' = characteristicRef st
  ∧ completion toggleSimulation b st = Normal ()
  ∧ effects toggleSimulation b st = [].
Proof.
  unfold exec, completion, effects, toggleSimulation, mbind, M_bind, bind, getState.
  cbn. destruct (isSimulationMode st); cbn; repeat split; intros; done.
Qed.

(** C8. [processData] is total: on every string, the empty one and those
    without a comma included, it completes without throwing and produces a
    reading.  A string has fewer than two comma-separated parts exactly when
    it has no comma; then the temperature is [parseFloat] of the whole string,
    or 0 when that is not a number (a parsed zero of either sign is stored as
    0), and the moisture is WET if the string contains "WET", else MIXED if it
    contains "MIXED", else DRY. *)
Theorem processData_total (dataString : string) (b : Browser) (st : AppState) :
  completion (processData dataString) b st = Normal ()
  ∧ (hasChar "," dataString = false ↔ (length (split "," dataString) < 2)%nat)
  ∧ ∃ r,
      latestReading (exec (processData dataString) b st) = Some r
      ∧ ((length (split "," dataString) < 2)%nat →
         (isNaN (parseFloat dataString) = true → temperature r = numLit 0)
         ∧ (isNaN (parseFloat dataString) = false →
            temperature r = parseFloat dataString
            ∨ isZero (parseFloat dataString) = true ∧ temperature r = numLit 0)
         ∧ (occursIn "WET" dataString → moisture r = WET)
         ∧ (¬ occursIn "WET" dataString → occursIn "MIXED" dataString →
            moisture r = MIXED)
         ∧ (¬ occursIn "WET" dataString → ¬ occursIn "MIXED" dataString →
            moisture r = DRY)).
Proof.
  destruct (processData_run dataString b st) as (temp & moist & Hcase & Hrun).
  cbn zeta in *. unfold completion, exec. rewrite Hrun. cbn.
  split; [reflexivity|]. split.
  { pose proof (split_length_hasChar "," dataString) as H. split.
    - intros Hf. destruct (decide (2 ≤ length (split "," dataString))%nat) as [Hge|Hlt];
        [apply H in Hge; congruence | lia].
    - intros Hlt. apply not_true_is_false. intros Ht%H. lia. }
  eexists. split; [reflexivity|]. cbn. intros Hlt.
  destruct Hcase as [(Hge & _) | (_ & -> & ->)]; [lia|].
  unfold logicalOr, toBoolean.
  split; [intros ->; reflexivity|].
  split.
  { intros ->. cbn. destruct (isZero (parseFloat dataString)); cbn; auto. }
  rewrite <- !includes_spec.
  destruct (includes "WET" dataString), (includes "MIXED" dataString);
    repeat split; intros; congruence.
Qed.

End Claims.

(** ** The claims on concrete inputs, with decimal numbers *)
Section Concrete.
Import JSString.
#[local] Existing Instance Decimal.decimalNumber.

Example parse_ex1 : parseFloat "37.5" = Decimal.Finite false 375 (-1).
Proof. reflexivity. Qed.
Example parse_ex2 : parseFloat "  -.5e3xyz" = Decimal.Finite true 5 2.
Proof. reflexivity. Qed.
Example parse_ex3 : parseFloat "WET" = Decimal.NaN.
Proof. reflexivity. Qed.
Example parse_ex4 : parseFloat "+Infinity!" = Decimal.Infinity false.
Proof. reflexivity. Qed.
Example parse_ex5 : parseFloat "1.e" = Decimal.Finite false 1 0.
Proof. reflexivity. Qed.
Example parse_ex6 : parseFloat "." = Decimal.NaN ∧ parseFloat "" = Decimal.NaN.
Proof. split; reflexivity. Qed.

Example split_ex1 : split "," "37.5,WET" = ["37.5"; "WET"].
Proof. reflexivity. Qed.
Example split_ex2 : split "," "" = [""].
Proof. reflexivity. Qed.
Example split_ex3 : split "," "a,,b," = ["a"; ""; "b"; ""].
Proof. reflexivity. Qed.
Example trim_ex1 : trim (String " " (String (ascii_of_nat 9) "wet  ")) = "wet".
Proof. reflexivity. Qed.
Example upper_ex1 : toUpperCase "mIxed{z" = "MIXED{Z".
Proof. reflexivity. Qed.
Example includes_ex1 : includes "WET" "xxWETyy" = true ∧ includes "WET" "wet" = false.
Proof. split; reflexivity. Qed.

(** Reading the second part without the length guard would throw. *)
Example trimAt_undefined :
  completion (trimAt ["37.5"] 1) phone initialState
    = Throw "TypeError: Cannot read properties of undefined (reading 'trim')".
Proof. reflexivity. Qed.

(** [MoistureStatus.MIXED] is not among the declared members. *)
Example MIXED_not_declared : MIXED ∉ declaredMembers.*2.
Proof. cbn. rewrite !elem_of_cons, elem_of_nil. intuition discriminate. Qed.

(** A WET payload on a phone: reading, buffer, cadence and the full alert. *)
Example processData_wet :
  processData "37.5, wet" phone initialState =
    (Normal (),
     {| connectionStatus := disconnected;
        readings := [{| id := "1700000000000"; timestamp := 1700000000001;
                        temperature := Decimal.Finite false 375 (-1); moisture := WET |}];
        latestReading := Some {| id := "1700000000000"; timestamp := 1700000000001;
                        temperature := Decimal.Finite false 375 (-1); moisture := WET |};
        notification := Some "Excessive moisture detected! Silica gel is saturated.";
        nextUpdateIn := 30; isSimulationMode := false;
        deviceRef := None; characteristicRef := None |},
     [NewNotification "SilicaSense Alert"
        "Excessive moisture detected! Silica gel is saturated." "/icon.png";
      Vibrate [200; 100; 200; 100; 500]]).
Proof. vm_compute. reflexivity. Qed.

(** Without permission and without a vibrator only the banner is raised. *)
Example processData_wet_desktop :
  notification (exec (processData "37.5,WET") desktop initialState)
    = Some alertMessage
  ∧ effects (processData "37.5,WET") desktop initialState = [].
Proof. vm_compute. split; reflexivity. Qed.

(** The fallback branch: no comma in the payload. *)
Example processData_fallback :
  (temperature <$> latestReading (exec (processData "21 MIXED") phone initialState))
    = Some (Decimal.Finite false 21 0)
  ∧ (moisture <$> latestReading (exec (processData "21 MIXED") phone initialState))
    = Some MIXED
  ∧ (temperature <$> latestReading (exec (processData "") phone initialState))
    = Some (Decimal.Finite false 0 0)
  ∧ (moisture <$> latestReading (exec (processData "") phone initialState))
    = Some DRY
  ∧ (temperature <$> latestReading (exec (processData "-0") phone initialState))
    = Some (Decimal.Finite false 0 0)
  ∧ (moisture <$> latestReading (exec (processData "MIXEDWET") phone initialState))
    = Some WET.
Proof. vm_compute. repeat split; reflexivity. Qed.

(** An unrecognised status token is classified DRY, not UNKNOWN. *)
Example processData_unrecognised :
  (moisture <$> latestReading (exec (processData "37.5,UNKNOWN") phone initialState))
    = Some DRY
  ∧ (moisture <$> latestReading (exec (processData "37.5,") phone initialState))
    = Some DRY.
Proof. vm_compute. split; reflexivity. Qed.

(** Twenty-two payloads leave twenty readings in the buffer. *)
Example processAll_keeps_20 :
  length (readings (processAll (replicate 22 (phone, "36.6,DRY")) initialState)) = 20%nat.
Proof. vm_compute. reflexivity. Qed.

(** The timer does not run in the initial state and runs once simulation
    mode is toggled on; the first tick then requests a read. *)
Example timer_after_toggle :
  timerRuns initialState = false
  ∧ timerRuns (exec toggleSimulation phone initialState) = true
  ∧ effects timerTick phone (exec toggleSimulation phone initialState) = [FetchReading].
Proof. vm_compute. repeat split; reflexivity. Qed.
End Concrete.

Section Witnesses.
#[local] Existing Instance Decimal.decimalNumber.


(** C4 on a run: three payloads into the initial state, then a fourth. *)
Lemma history_buffer_witness :
  let inputs := [(phone, "36.6,DRY"); (desktop, "37,MIXED"); (phone, "38")] in
  let st := processAll inputs initialState in
  let st' := exec (processData "37.5,WET") phone st in
  (length (readings st) < 20)%nat
  ∧ ∃ r : @Reading Decimal.decimalNumber,
      latestReading st' = Some r
      ∧ readings st' = readings st ++ [r]
      ∧ readings st' = sliceLast 20 (produced inputs initialState ++ [r]).
Proof.
  intros inputs st st'.
  assert (length (readings st) < 20)%nat as Hlt by (vm_compute; lia).
  split; [exact Hlt|].
  destruct (history_buffer "37.5,WET" phone st)
    as (r & Hr & _ & _ & _ & Hgrow & _ & Hrun).
  exists r. split; [exact Hr|]. split; [exact (Hgrow Hlt)|].
  apply (Hrun inputs initialState); [cbn; lia | reflexivity].
Defined.


(** C3 as stated fails on a browser that has not been granted the
    notification permission and cannot vibrate: the reading is WET and the
    banner is set, yet no OS notification and no vibration is raised. *)
Lemma wet_without_os_notification :
  let st' := exec (processData "37.5,WET") desktop initialState in
  let log := effects (processData "37.5,WET") desktop initialState in
  (moisture <$> latestReading st') = Some WET
  ∧ notification st' = Some alertMessage
  ∧ (∀ title body icon, NewNotification title body icon ∉ log)
  ∧ (∀ pattern, Vibrate pattern ∉ log).
Proof.
  unfold exec, effects.
  replace (processData "37.5,WET" desktop initialState)
    with (Normal (),
          {| connectionStatus := disconnected;
             readings := [{| id := "1700000000500"; timestamp := 1700000000500;
                             temperature := parseFloat "37.5"; moisture := WET |}];
             latestReading := Some {| id := "1700000000500"; timestamp := 1700000000500;
                             temperature := parseFloat "37.5"; moisture := WET |};
             notification := Some alertMessage;
             nextUpdateIn := 30; isSimulationMode := false;
             deviceRef := None; characteristicRef := None |},
          @nil Effect)
    by (vm_compute; reflexivity).
  cbn. repeat split; intros; apply not_elem_of_nil.
Qed.

End Witnesses.

(** C5 as stated asks for a payload whose inferred status is UNKNOWN.  There
    is none: whatever the number model, payload, browser and state, the
    reading [processData] produces is not UNKNOWN. *)
Lemma unknown_never_inferred :
  ¬ ∃ (J : JSNumber) (dataString : string) (b : Browser) (st : AppState) (r : Reading),
      latestReading (exec (processData dataString) b st) = Some r
      ∧ moisture r = UNKNOWN.
Proof.
  intros (J & dataString & b & st & r & Hr & Hu).
  destruct (moisture_run dataString b st) as (r' & Hr' & Hm).
  rewrite Hr in Hr'. injection Hr' as <-.
  rewrite Hu in Hm. destruct Hm as [? | [? | ?]]; discriminate.
Qed.

(** * Properties of the rest of the component *)

(** ** The countdown label *)
Section FormatFacts.
Import JSString.

(** A character that is no digit does not occur in the digits of a number. *)
Lemma pretty_N_go_hasChar (c : ascii) (x : N) (s : string) :
  (∀ d, pretty_N_char d ≠ c) →
  hasChar c (pretty_N_go x s) = hasChar c s.
Proof.
  intros Hc. revert s. induction (N.lt_wf_0 x) as [x _ IH]; intros s.
  destruct (decide (x = 0)%N) as [->|Hx]; [by rewrite pretty_N_go_0|].
  rewrite pretty_N_go_step by lia.
  rewrite IH by (apply N.div_lt; lia).
  cbn [hasChar]. destruct (Ascii.eqb_spec (pretty_N_char (x `mod` 10)) c) as [E|_]; [|done].
  by destruct (Hc _ E).
Qed.

Lemma pretty_N_hasChar (c : ascii) (x : N) :
  (∀ d, pretty_N_char d ≠ c) → c ≠ "0"%char →
  hasChar c (pretty x) = false.
Proof.
  intros Hc H0. unfold pretty, pretty_N. case_decide.
  - cbn [hasChar]. rewrite orb_false_r. apply Ascii.eqb_neq. congruence.
  - by rewrite pretty_N_go_hasChar.
Qed.

Lemma pretty_Z_hasChar (c : ascii) (z : Z) :
  (∀ d, pretty_N_char d ≠ c) → c ≠ "0"%char → c ≠ "-"%char →
  hasChar c (pretty z) = false.
Proof.
  intros Hc H0 Hm. destruct z as [|p|p].
  - change (pretty 0) with "0". cbn [hasChar]. rewrite orb_false_r.
    apply Ascii.eqb_neq. congruence.
  - change (pretty (Z.pos p)) with (pretty (N.pos p)). by apply pretty_N_hasChar.
  - change (pretty (Z.neg p)) with ("-" +:+ pretty (N.pos p)).
    rewrite hasChar_app, (pretty_N_hasChar c (N.pos p)) by done.
    cbn [hasChar]. rewrite !orb_false_r. apply Ascii.eqb_neq. congruence.
Qed.


Lemma not_digit_comma (d : N) : pretty_N_char d ≠ ","%char.
Proof. unfold pretty_N_char. by repeat case_match. Qed.



(** For a positive count the label is the minutes, a colon, and the seconds
    field of the remainder. *)
Lemma formatTime_positive (s : Z) :
  0 < s →
  formatTime s =
    pretty (s `div` 60) +:+ String ":" (secondsField (Z.to_nat (s `mod` 60))).
Proof.
  intros Hs. unfold formatTime. rewrite bool_decide_eq_false_2 by lia.
  unfold secondsField. rewrite Z.rem_mod_nonneg by lia.
  rewrite Z2Nat.id by (apply Z.mod_pos_bound; lia). reflexivity.
Qed.
End FormatFacts.

Section FormatTime.
Import JSString.


(** X1. The countdown label reads "Updating..." exactly when the count is
    zero or negative. *)
Theorem formatTime_updating_iff (seconds : Z) :
  formatTime seconds = "Updating..." ↔ seconds ≤ 0.
Proof.
  split.
  - intros E. destruct (decide (seconds ≤ 0)) as [|Hpos]; [done|].
    assert (hasChar ":" (formatTime seconds) = true) as Hc.
    { rewrite formatTime_positive by lia. rewrite hasChar_app.
      cbn [hasChar]. rewrite Ascii.eqb_refl. by rewrite orb_true_r. }
    rewrite E in Hc. vm_compute in Hc. discriminate.
  - intros H. unfold formatTime. by rewrite bool_decide_eq_true_2.
Qed.


End FormatTime.

(** ** Cards and chart *)
Section Presentation.
Context {J : JSNumber} {F : JSFormat}.
Import JSString.

Lemma sliceLast_fmap {A B} (f : A → B) (n : nat) (a : list A) :
  sliceLast n (f <$> a) = f <$> sliceLast n a.
Proof. unfold sliceLast. by rewrite length_fmap, fmap_drop. Qed.

Lemma sliceLast_sliceLast {A} (n m : nat) (a : list A) :
  (n ≤ m)%nat → sliceLast n (sliceLast m a) = sliceLast n a.
Proof.
  intros Hnm. unfold sliceLast. rewrite length_drop, drop_drop. f_equal. lia.
Qed.

Lemma sliceLast_nil_iff {A} (n : nat) (a : list A) :
  (0 < n)%nat → sliceLast n a = [] ↔ a = [].
Proof.
  intros Hn. split; [|by intros ->].
  intros E. apply (f_equal length) in E. unfold sliceLast in E.
  rewrite length_drop in E. cbn in E.
  destruct a; [done|]. cbn in E. lia.
Qed.

(** X4. After any payload the moisture card is red, orange or green, never
    the gray "Waiting for Data" card; it is red exactly when the alert banner
    is shown. *)
Theorem moisture_card_after_reading (dataString : string) (b : Browser) (st : AppState) :
  let v := render (exec (processData dataString) b st) in
  ∃ r,
    latestReading (exec (processData dataString) b st) = Some r
    ∧ (moisture r = WET ∧ moistureColor v = "red"
         ∧ moistureText v = "Moisture Detected" ∧ banner v = Some alertMessage
       ∨ moisture r = MIXED ∧ moistureColor v = "orange"
         ∧ moistureText v = "Mixed Levels" ∧ banner v = None
       ∨ moisture r = DRY ∧ moistureColor v = "green"
         ∧ moistureText v = "Silica Gel Dry" ∧ banner v = None).
Proof.
  destruct (processData_run dataString b st) as (temp & moist & _ & Hrun).
  destruct (moisture_run dataString b st) as (r & Hr & Hm).
  cbn zeta in *. unfold exec in *. rewrite Hrun in *. cbn in Hr.
  injection Hr as <-. cbn in Hm.
  eexists. split; [reflexivity|]. unfold render. cbn.
  destruct Hm as [-> | [-> | ->]]; cbn; auto 10.
Qed.


Lemma chartPoint_level (r : Reading) :
  moistureLevel (chartPoint r) =
    match moisture r with WET => 1%float | MIXED => 0.5%float | _ => 0%float end.
Proof. unfold chartPoint. destruct (moisture r); reflexivity. Qed.

Lemma HistoryChart_None_iff (data : list Reading) : HistoryChart data = None ↔ data = [].
Proof.
  unfold HistoryChart. cbn zeta.
  destruct (length (chartData data) =? 0)%nat eqn:Hl.
  - apply Nat.eqb_eq, length_zero_iff_nil in Hl. split; [intros _|done].
    unfold chartData in Hl. apply sliceLast_nil_iff in Hl; [|lia].
    by apply fmap_nil_inv in Hl.
  - split; [done|]. intros ->. by vm_compute in Hl.
Qed.

(** X6. The chart shows the points of the last 10 readings, in order; it is
    absent exactly when there is no reading; every moisture level drawn is
    0, 0.5 or 1, inside the axis domain [0, 1]. *)
Theorem chart_shows_last_ten (data : list Reading) :
  chartData data = chartPoint <$> sliceLast 10 data
  ∧ (length (chartData data) ≤ 10)%nat
  ∧ (HistoryChart data = None ↔ data = [])
  ∧ (∀ points, HistoryChart data = Some points → points = chartData data)
  ∧ ∀ p, p ∈ chartData data →
      (∃ r, r ∈ data ∧ p = chartPoint r)
      ∧ (moistureLevel p = 0%float ∨ moistureLevel p = 0.5%float ∨ moistureLevel p = 1%float)
      ∧ PrimFloat.leb 0 (moistureLevel p) && PrimFloat.leb (moistureLevel p) 1 = true.
Proof.
  assert (chartData data = chartPoint <$> sliceLast 10 data) as E
    by apply sliceLast_fmap.
  split; [exact E|]. split; [apply sliceLast_length|].
  split; [|split].
  - apply HistoryChart_None_iff.
  - unfold HistoryChart. cbn zeta. intros points.
    destruct (length (chartData data) =? 0)%nat; congruence.
  - intros p Hp. rewrite E in Hp. apply list_elem_of_fmap in Hp as (r & -> & Hr).
    split.
    + exists r. split; [|done]. unfold sliceLast in Hr.
      revert Hr. apply subseteq_drop.
    + rewrite chartPoint_level. destruct (moisture r); auto.
Qed.

(** X7. After a payload the chart is shown, its last point is the point of the
    new reading, and it draws the last 10 of the old history followed by the
    new reading: the cap of the history at 20 never shows in the chart. *)
Theorem chart_after_reading (dataString : string) (b : Browser) (st : AppState) :
  let st' := exec (processData dataString) b st in
  ∃ r,
    latestReading st' = Some r
    ∧ chart (render st') = Some (chartData (readings st ++ [r]))
    ∧ last (chartData (readings st ++ [r])) = Some (chartPoint r).
Proof.
  destruct (processData_run dataString b st) as (temp & moist & _ & Hrun).
  cbn zeta in *. unfold exec. rewrite Hrun. cbn.
  eexists. split; [reflexivity|].
  assert (∀ l : list Reading, chartData (sliceLast 20 l) = chartData l) as Hcap.
  { intros l. unfold chartData.
    rewrite <- sliceLast_fmap. apply sliceLast_sliceLast. lia. }
  assert (∀ (l : list Reading) r,
            last (chartData (l ++ [r])) = Some (chartPoint r)) as Hlast.
  { intros l r. unfold chartData. rewrite fmap_app. cbn [fmap list_fmap].
    apply sliceLast_last. lia. }
  split; [|apply Hlast].
  unfold HistoryChart. cbn zeta. rewrite Hcap.
  destruct (length _ =? 0)%nat eqn:Hl; [|reflexivity].
  apply Nat.eqb_eq, length_zero_iff_nil in Hl.
  apply (f_equal last) in Hl. by rewrite Hlast in Hl.
Qed.
End Presentation.

(** ** Asynchronous handlers *)
Section AsyncFacts.
Context {J : JSNumber} {F : JSFormat}.
Import JSString.

Lemma liftM_processData (dataString : string) (w : World) (b : Browser) (st : AppState) :
  liftM (processData dataString) w b st =
    (Returned (), exec (processData dataString) b st,
     Sync <$> effects (processData dataString) b st).
Proof.
  destruct (processData_run dataString b st) as (temp & moist & _ & Hrun).
  cbn zeta in Hrun. unfold liftM, exec, effects. by rewrite Hrun.
Qed.

Lemma hasChar_cycle (c : ascii) (k : nat) (fill cur : string) :
  hasChar c fill = false → hasChar c cur = false → hasChar c (JSText.cycle k fill cur) = false.
Proof.
  intros Hf. revert cur. induction k as [|k IH]; intros cur Hc; cbn [JSText.cycle]; [done|].
  destruct cur as [|x r].
  - destruct fill as [|y r]; [done|].
    cbn [hasChar] in *. apply orb_false_iff in Hf as [-> Hr]. cbn. by apply IH.
  - cbn [hasChar] in *. apply orb_false_iff in Hc as [-> Hr]. cbn. by apply IH.
Qed.

Lemma hasChar_padStart (c : ascii) (n : nat) (fill s : string) :
  hasChar c fill = false → hasChar c s = false →
  hasChar c (JSText.padStart n fill s) = false.
Proof.
  intros Hf Hs. unfold JSText.padStart. case_match; [done|].
  rewrite hasChar_app, Hs, orb_false_r. by apply hasChar_cycle.
Qed.

Lemma hasChar_substring (c : ascii) (n m : nat) (s : string) :
  hasChar c s = false → hasChar c (String.substring n m s) = false.
Proof.
  revert n m. induction s as [|x s IH]; intros n m Hs.
  - by destruct n, m.
  - cbn [hasChar] in Hs. apply orb_false_iff in Hs as [Hx Hs].
    destruct n as [|n]; [destruct m as [|m]|]; cbn [String.substring]; [done| |by apply IH].
    cbn [hasChar]. rewrite Hx. by apply IH.
Qed.

Lemma fixedDigits_no_comma (f : nat) (n : Z) :
  hasChar "," (JSFloat.fixedDigits f n) = false.
Proof.
  assert (hasChar "," (pretty n) = false) as Hn
    by (apply pretty_Z_hasChar; [apply not_digit_comma | done | done]).
  unfold JSFloat.fixedDigits. cbn zeta. case_match; [done|].
  assert (hasChar "," (JSText.padStart (S f) "0" (pretty n)) = false) as Hp
    by (by apply hasChar_padStart).
  rewrite !hasChar_app, !hasChar_substring by done. reflexivity.
Qed.

(** [toFixed(1)] never throws. *)
Lemma toFixed_1_returns (x : PrimFloat.float) : ∃ t, JSFloat.toFixed 1 x = Normal t.
Proof.
  unfold JSFloat.toFixed. cbn [Nat.ltb Nat.leb].
  destruct (FloatOps.Prim2SF x) as [| [] | |s m e]; eauto.
  cbn zeta. case_match; eauto.
Qed.

(** What [toFixed] returns has no comma, as long as the exponent notation of
    the host has none. *)
Lemma toFixed_no_comma (f : nat) (x : PrimFloat.float) (t : string) :
  (∀ y, hasChar "," (largeToString y) = false) →
  JSFloat.toFixed f x = Normal t → hasChar "," t = false.
Proof.
  intros Hlarge. unfold JSFloat.toFixed. case_match; [done|].
  destruct (FloatOps.Prim2SF x) as [| [] | |s m e]; try (intros [= <-]; reflexivity).
  - intros [= <-]. apply fixedDigits_no_comma.
  - cbn zeta. case_match; intros [= <-]; rewrite hasChar_app.
    + rewrite Hlarge. by destruct s.
    + rewrite fixedDigits_no_comma. by destruct s.
Qed.

(** The label the simulation draws. *)
#[warnings="-inexact-float"]
Lemma fetchReadingIn_simulation (w : World) (b : Browser) (st : AppState) (simTemp : string) :
  JSFloat.toFixed 1 (36 + random w 0 * 1.5)%float = Normal simTemp →
  let simMoisture :=
    if PrimFloat.ltb 0.8%float (random w 1) then "WET"
    else if PrimFloat.ltb 0.6%float (random w 1) then "MIXED"
    else "DRY" in
  let payload := simTemp +:+ "," +:+ simMoisture in
  fetchReadingIn true w b st =
    (Returned (), exec (processData payload) b st,
     [Call CallRandom; Call CallRandom] ++ (Sync <$> effects (processData payload) b st)).
Proof.
  intros Ht. cbn zeta.
  unfold fetchReadingIn, mbind, Async_bind, abind, mathRandom.
  cbn -[processData liftM JSFloat.toFixed].
  rewrite Ht. cbn -[processData liftM].
  rewrite liftM_processData. reflexivity.
Qed.

Lemma fetchReadingIn_bluetooth (w : World) (b : Browser) (st : AppState) :
  fetchReadingIn false w b st =
    match characteristicRef st with
    | None => (Returned (), st, [])
    | Some characteristic =>
        match readValue w characteristic with
        | Fulfilled dataString =>
            (Returned (), exec (processData dataString) b st,
             [Call (CallReadValue characteristic);
              Console levelLog "Data Received:" (ArgText dataString)]
             ++ (Sync <$> effects (processData dataString) b st))
        | Rejected err =>
            (Returned (), st,
             [Call (CallReadValue characteristic);
              Console levelError "Read Error:" (ArgError err)])
        end
    end.
Proof.
  unfold fetchReadingIn, mbind, Async_bind, abind, appState. cbn -[processData liftM].
  destruct (characteristicRef st) as [characteristic|]; [|reflexivity].
  unfold tryCatch, await, output. cbn -[processData liftM].
  destruct (readValue w characteristic) as [dataString|err]; cbn -[processData liftM].
  - rewrite liftM_processData. reflexivity.
  - reflexivity.
Qed.
End AsyncFacts.

(** ** Reading *)
Section Fetch.
Context {J : JSNumber} {F : JSFormat}.
Import JSString.

(** [processData] leaves the connection alone. *)
Lemma processData_frame (dataString : string) (b : Browser) (st : AppState) :
  let st' := exec (processData dataString) b st in
  connectionStatus st' = connectionStatus st
  ∧ isSimulationMode st' = isSimulationMode st
  ∧ deviceRef st' = deviceRef st
  ∧ characteristicRef st' = characteristicRef st.
Proof.
  destruct (processData_run dataString b st) as (temp & moist & _ & Hrun).
  cbn zeta in *. unfold exec. rewrite Hrun. cbn. done.
Qed.

Lemma alerts_app (l1 l2 : list Output) : alerts (l1 ++ l2) = alerts l1 ++ alerts l2.
Proof. apply omap_app. Qed.

Lemma calls_app (l1 l2 : list Output) : calls (l1 ++ l2) = calls l1 ++ calls l2.
Proof. apply omap_app. Qed.

Lemma calls_Sync (l : list Effect) : calls (Sync <$> l) = [].
Proof. induction l; [done|]. cbn. done. Qed.

Lemma alerts_fetchOutput (log : list Output) : Forall fetchOutput log → alerts log = [].
Proof.
  induction 1 as [|o log Ho _ IH]; [done|].
  destruct o as [| | | | |[]]; cbn in *; done.
Qed.

Lemma calls_fetchOutput (log : list Output) (c : ExternalCall) :
  Forall fetchOutput log → c ∈ calls log →
  c = CallRandom ∨ ∃ characteristic, c = CallReadValue characteristic.
Proof.
  induction 1 as [|o log Ho _ IH]; cbn.
  - by intros ?%elem_of_nil.
  - destruct o as [| | | | |[]]; cbn in *; try done;
      rewrite elem_of_cons; intros [->|H]; eauto.
Qed.

(** A run of [fetchReading] returns; it either leaves the state as it was or
    processes one payload; and it puts out nothing but its calls, console
    lines and the effects of [processData]. *)
Lemma fetchReadingIn_shape (simulation : bool) (w : World) (b : Browser) (st : AppState) :
  ∃ st' log,
    fetchReadingIn simulation w b st = (Returned (), st', log)
    ∧ (st' = st ∨ ∃ dataString, st' = exec (processData dataString) b st)
    ∧ Forall fetchOutput log.
Proof.
  assert (∀ l : list Effect, Forall fetchOutput (Sync <$> l)) as Hsync.
  { intros l. apply Forall_fmap, Forall_forall. by intros. }
  destruct simulation.
  - destruct (toFixed_1_returns (36 + random w 0 * 1.5)%float) as [t Ht].
    rewrite (fetchReadingIn_simulation w b st t Ht). cbn zeta.
    eexists _, _. split; [reflexivity|]. split; [eauto|].
    apply Forall_app. split; [|apply Hsync]. by repeat constructor.
  - rewrite fetchReadingIn_bluetooth.
    destruct (characteristicRef st) as [c|]; [destruct (readValue w c) as [s|e]|];
      (eexists _, _; split; [reflexivity|]; split; [eauto|]).
    + apply Forall_app. split; [|apply Hsync]. by repeat constructor.
    + by repeat constructor.
    + constructor.
Qed.

(** A read changes neither the connection status, the mode nor the
    references, and alerts nothing. *)
Lemma fetchReadingIn_frame (simulation : bool) (w : World) (b : Browser) (st : AppState) :
  ∃ st' log,
    fetchReadingIn simulation w b st = (Returned (), st', log)
    ∧ connectionStatus st' = connectionStatus st
    ∧ isSimulationMode st' = isSimulationMode st
    ∧ deviceRef st' = deviceRef st
    ∧ characteristicRef st' = characteristicRef st
    ∧ alerts log = []
    ∧ Forall fetchOutput log.
Proof.
  destruct (fetchReadingIn_shape simulation w b st) as (st' & log & E & Hst & Hlog).
  exists st', log. split; [exact E|].
  rewrite (alerts_fetchOutput log Hlog).
  destruct Hst as [-> | [s ->]]; [done|].
  pose proof (processData_frame s b st) as Hf. cbn zeta in Hf. intuition.
Qed.

Lemma fetchReading_unfold (w : World) (b : Browser) (st : AppState) :
  fetchReading w b st = fetchReadingIn (isSimulationMode st) w b st.
Proof.
  unfold fetchReading, mbind, Async_bind, abind, appState. cbn -[fetchReadingIn].
  by destruct (fetchReadingIn (isSimulationMode st) w b st) as [[r st'] log].
Qed.

(** The simulated read: the reading it records and what it puts out. *)
#[warnings="-inexact-float"]
Lemma fetchReadingIn_simulated (w : World) (b : Browser) (st : AppState) :
  (∀ y, hasChar "," (largeToString y) = false) →
  ∃ simTemp r,
    JSFloat.toFixed 1 (36 + random w 0 * 1.5)%float = Normal simTemp
    ∧ temperature r = parseFloat simTemp
    ∧ moisture r =
        (if PrimFloat.ltb 0.8%float (random w 1) then WET
         else if PrimFloat.ltb 0.6%float (random w 1) then MIXED
         else DRY)
    ∧ after (fetchReadingIn true) w b st =
        {| connectionStatus := connectionStatus st;
           readings := sliceLast 20 (readings st ++ [r]);
           latestReading := Some r;
           notification := match moisture r with WET => Some alertMessage | _ => None end;
           nextUpdateIn := match moisture r with WET => 30 | MIXED => 120 | _ => 300 end;
           isSimulationMode := isSimulationMode st;
           deviceRef := deviceRef st; characteristicRef := characteristicRef st |}
    ∧ calls (outputs (fetchReadingIn true) w b st) = [CallRandom; CallRandom].
Proof.
  intros Hlarge.
  destruct (toFixed_1_returns (36 + random w 0 * 1.5)%float) as [t Ht].
  pose proof (toFixed_no_comma 1 _ t Hlarge Ht) as Hcomma.
  unfold after, outputs.
  rewrite (fetchReadingIn_simulation w b st t Ht). cbn zeta. cbn [fst snd].
  match goal with
  | |- context [processData (t +:+ "," +:+ ?l)] => set (label := l)
  end.
  change ("," +:+ label) with (String "," label).
  destruct (processData_run (t +:+ String "," label) b st)
    as (temp & moist & Hcase & Hrun).
  cbn zeta in Hcase, Hrun. unfold exec. rewrite Hrun. cbn [fst snd latestReading].
  destruct Hcase as [(_ & Htemp & p1 & Hp1 & Hmoist) | (Hlt & _)].
  2:{ assert (2 ≤ length (split "," (t +:+ String "," label)))%nat; [|lia].
      apply split_length_hasChar. rewrite hasChar_app. cbn [hasChar].
      rewrite Ascii.eqb_refl. by rewrite orb_true_r. }
  rewrite split_second_field, Hcomma in Hp1. injection Hp1 as <-.
  unfold parseFloatAt in Htemp.
  rewrite split_lookup_0, firstPiece_app_sep, firstPiece_no_sep in Htemp by done.
  cbn [default] in Htemp.
  exists t, {| id := pretty (dateNow b); timestamp := newDate b;
               temperature := temp; moisture := moist |}.
  split; [done|]. cbn [temperature moisture].
  split; [exact Htemp|]. split; [|split; [reflexivity|]].
  - rewrite Hmoist. subst label.
    repeat match goal with
           | |- context [if ?c then "WET" else _] => destruct c
           | |- context [if ?c then "MIXED" else _] => destruct c
           end; vm_compute; reflexivity.
  - by rewrite calls_app, calls_Sync.
Qed.

(** X8. In Bluetooth mode a read that cannot be made (no characteristic) or
    that fails changes nothing: the state is as before, nothing is thrown,
    no alert and no notification is raised; a failure is only reported on
    the console. *)
Theorem failed_read_changes_nothing (w : World) (b : Browser) (st : AppState) :
  isSimulationMode st = false →
  (characteristicRef st = None
   ∨ ∃ characteristic err,
       characteristicRef st = Some characteristic
       ∧ readValue w characteristic = Rejected err) →
  outcome fetchReading w b st = Returned ()
  ∧ after fetchReading w b st = st
  ∧ (characteristicRef st = None → outputs fetchReading w b st = [])
  ∧ ∀ characteristic err,
      characteristicRef st = Some characteristic →
      readValue w characteristic = Rejected err →
      outputs fetchReading w b st =
        [Call (CallReadValue characteristic);
         Console levelError "Read Error:" (ArgError err)].
Proof.
  intros Hsim Hcase. unfold outcome, after, outputs.
  rewrite fetchReading_unfold, Hsim, fetchReadingIn_bluetooth.
  destruct Hcase as [-> | (c & e & -> & Hr)]; [|rewrite Hr]; cbn.
  - split; [done|]. split; [done|]. split; [done|]. by intros.
  - split; [done|]. split; [done|]. split; [done|].
    intros c' e' [= <-] Hr'. rewrite Hr in Hr'. by injection Hr' as <-.
Qed.

(** X9. In Bluetooth mode a read that succeeds is handled exactly as
    [processData] handles the decoded text: same resulting state, the same
    effects after the call and the console line, and nothing is thrown. *)
Theorem successful_read_is_processed (w : World) (b : Browser) (st : AppState)
    (characteristic : BluetoothRemoteGATTCharacteristic) (dataString : string) :
  isSimulationMode st = false →
  characteristicRef st = Some characteristic →
  readValue w characteristic = Fulfilled dataString →
  outcome fetchReading w b st = Returned ()
  ∧ after fetchReading w b st = exec (processData dataString) b st
  ∧ outputs fetchReading w b st =
      [Call (CallReadValue characteristic);
       Console levelLog "Data Received:" (ArgText dataString)]
      ++ (Sync <$> effects (processData dataString) b st).
Proof.
  intros Hsim Hc Hr. unfold outcome, after, outputs.
  rewrite fetchReading_unfold, Hsim, fetchReadingIn_bluetooth, Hc, Hr. done.
Qed.

(** X10. [fetchReading] never throws, whatever the mode, the world and the
    state; it never changes the connection status, the simulation flag or
    the two references, and it alerts nothing. *)
Theorem fetchReading_never_throws (w : World) (b : Browser) (st : AppState) :
  let st' := after fetchReading w b st in
  outcome fetchReading w b st = Returned ()
  ∧ connectionStatus st' = connectionStatus st
  ∧ isSimulationMode st' = isSimulationMode st
  ∧ deviceRef st' = deviceRef st
  ∧ characteristicRef st' = characteristicRef st
  ∧ alerts (outputs fetchReading w b st) = [].
Proof.
  cbn zeta. unfold outcome, after, outputs. rewrite fetchReading_unfold.
  destruct (fetchReadingIn_frame (isSimulationMode st) w b st)
    as (st' & log & -> & ? & ? & ? & ? & ? & _). done.
Qed.

(** X11. In simulation mode the device is never read, even when a
    characteristic is at hand: the only calls are two to [Math.random].  One
    reading is recorded, WET when the second random number is above 0.8,
    MIXED when it is above 0.6 and not above 0.8, DRY otherwise, with the
    temperature parsed from the text [toFixed(1)] gives for 36 plus 1.5
    times the first random number. *)
#[warnings="-inexact-float"]
Theorem simulated_reading (w : World) (b : Browser) (st : AppState) :
  (∀ y, hasChar "," (largeToString y) = false) →
  isSimulationMode st = true →
  ∃ simTemp r,
    JSFloat.toFixed 1 (36 + random w 0 * 1.5)%float = Normal simTemp
    ∧ latestReading (after fetchReading w b st) = Some r
    ∧ readings (after fetchReading w b st) = sliceLast 20 (readings st ++ [r])
    ∧ temperature r = parseFloat simTemp
    ∧ moisture r =
        (if PrimFloat.ltb 0.8%float (random w 1) then WET
         else if PrimFloat.ltb 0.6%float (random w 1) then MIXED
         else DRY)
    ∧ calls (outputs fetchReading w b st) = [CallRandom; CallRandom].
Proof.
  intros Hlarge Hsim.
  destruct (fetchReadingIn_simulated w b st Hlarge) as (t & r & Ht & Htemp & Hm & Hafter & Hcalls).
  exists t, r. unfold after, outputs in *. rewrite fetchReading_unfold, Hsim.
  rewrite Hafter, Hcalls. done.
Qed.
End Fetch.

(** ** The polling period *)
Section Polling.
Context {J : JSNumber} {F : JSFormat}.

(** The state with another count. *)
Lemma tick_decrements (b : Browser) (st : AppState) :
  1 < nextUpdateIn st →
  timerTick b st = (Normal (), exec (setNextUpdateIn (λ _, nextUpdateIn st - 1)) b st, []).
Proof.
  intros H. rewrite timerTick_run. by rewrite bool_decide_eq_false_2 by lia.
Qed.

Lemma tick_fetches (b : Browser) (st : AppState) :
  nextUpdateIn st ≤ 1 →
  timerTick b st = (Normal (), exec (setNextUpdateIn (λ _, 5)) b st, [FetchReading]).
Proof.
  intros H. rewrite timerTick_run. by rewrite bool_decide_eq_true_2 by lia.
Qed.

Lemma count_after_set (c : Z) (b : Browser) (st : AppState) :
  nextUpdateIn (exec (setNextUpdateIn (λ _, c)) b st) = c.
Proof. reflexivity. Qed.

Lemma set_after_set (c d : Z) (b : Browser) (st : AppState) :
  exec (setNextUpdateIn (λ _, d)) b (exec (setNextUpdateIn (λ _, c)) b st)
  = exec (setNextUpdateIn (λ _, d)) b st.
Proof. reflexivity. Qed.

(** While more ticks are left than have fired, nothing is requested and the
    count has gone down by the number of ticks. *)
Lemma ticks_countdown (k : nat) (b : Browser) (st : AppState) :
  Z.of_nat k < nextUpdateIn st →
  ticks k b st = (exec (setNextUpdateIn (λ _, nextUpdateIn st - Z.of_nat k)) b st, []).
Proof.
  revert st. induction k as [|k IH]; intros st Hk.
  - cbn. rewrite Z.sub_0_r. by destruct st.
  - cbn [ticks]. rewrite tick_decrements by lia.
    rewrite IH by (rewrite count_after_set; lia).
    rewrite count_after_set, set_after_set, app_nil_l.
    by replace (nextUpdateIn st - 1 - Z.of_nat k) with (nextUpdateIn st - Z.of_nat (S k)) by lia.
Qed.

Lemma ticks_S (n : nat) (b : Browser) (st : AppState) :
  ticks (S n) b st =
    let '(_, st1, log1) := timerTick b st in
    let '(st2, log2) := ticks n b st1 in
    (st2, log1 ++ log2).
Proof. reflexivity. Qed.

Lemma ticks_add (n m : nat) (b : Browser) (st : AppState) :
  ticks (n + m) b st =
    let '(st1, log1) := ticks n b st in
    let '(st2, log2) := ticks m b st1 in
    (st2, log1 ++ log2).
Proof.
  revert st. induction n as [|n IH]; intros st.
  - cbn [Nat.add ticks]. by destruct (ticks m b st).
  - change (S n + m)%nat with (S (n + m)). rewrite !ticks_S.
    destruct (timerTick b st) as [[c st1] log1]. rewrite IH.
    destruct (ticks n b st1) as [st2 log2]. destruct (ticks m b st2) as [st3 log3].
    by rewrite app_assoc.
Qed.

Lemma ticks_until_fetch (n : nat) (b : Browser) (st : AppState) :
  nextUpdateIn st = Z.of_nat (S n) →
  ticks n b st = (exec (setNextUpdateIn (λ _, 1)) b st, [])
  ∧ ticks (S n) b st = (exec (setNextUpdateIn (λ _, 5)) b st, [FetchReading]).
Proof.
  intros Hn.
  assert (ticks n b st = (exec (setNextUpdateIn (λ _, 1)) b st, [])) as H1.
  { rewrite ticks_countdown by lia.
    by replace (nextUpdateIn st - Z.of_nat n) with 1 by lia. }
  split; [exact H1|].
  replace (S n) with (n + 1)%nat by lia. rewrite ticks_add, H1.
  rewrite ticks_S. rewrite tick_fetches by (rewrite count_after_set; lia).
  reflexivity.
Qed.

(** X12. From a count of [n + 1] the first [n] firings of the timer request
    nothing and bring the count to 1; the next firing requests exactly one
    read and sets the count to 5.  Nothing but the count changes. *)
Theorem read_requested_when_count_runs_out (n : nat) (b : Browser) (st : AppState) :
  nextUpdateIn st = Z.of_nat (S n) →
  (ticks n b st).2 = []
  ∧ (ticks n b st).1 = exec (setNextUpdateIn (λ _, 1)) b st
  ∧ (ticks (S n) b st).2 = [FetchReading]
  ∧ (ticks (S n) b st).1 = exec (setNextUpdateIn (λ _, 5)) b st.
Proof.
  intros Hn. destruct (ticks_until_fetch n b st Hn) as [-> ->]. done.
Qed.

(** X13. After a payload has been processed, and with nothing else
    happening, the next read is requested by the 30th firing of the timer
    when the reading is WET, by the 120th when it is MIXED and by the 300th
    when it is DRY, and by no firing before. *)
Theorem next_read_after_reading (dataString : string) (b b' : Browser) (st : AppState) :
  let st' := exec (processData dataString) b st in
  ∃ r,
    latestReading st' = Some r
    ∧ let period := match moisture r with WET => 30 | MIXED => 120 | _ => 300 end%nat in
      (ticks (period - 1) b' st').2 = []
      ∧ (ticks period b' st').2 = [FetchReading].
Proof.
  destruct (processData_run dataString b st) as (temp & moist & _ & Hrun).
  destruct (moisture_run dataString b st) as (r & Hr & Hm).
  cbn zeta in *. exists r. split; [exact Hr|].
  assert (moisture r = moist) as Hmr.
  { unfold exec in Hr. rewrite Hrun in Hr. cbn in Hr. by injection Hr as <-. }
  assert (nextUpdateIn (exec (processData dataString) b st)
          = match moist with WET => 30 | MIXED => 120 | _ => 300 end) as Hc.
  { unfold exec. rewrite Hrun. reflexivity. }
  rewrite Hmr in *.
  destruct Hm as [-> | [-> | ->]];
    match goal with
    | |- context [ticks (?p - 1)] =>
        destruct (ticks_until_fetch (p - 1) b' (exec (processData dataString) b st))
          as [E1 E2]; [rewrite Hc; reflexivity|]
    end;
    cbn [Nat.sub] in *; rewrite E1, E2; done.
Qed.
End Polling.

(** ** Connecting *)
Section Connect.
Context {J : JSNumber} {F : JSFormat}.
Import JSString.

Ltac connect_step :=
  match goal with
  | |- context [match ?x with Fulfilled _ => _ | Rejected _ => _ end] =>
      let H := fresh "Hw" in destruct x eqn:H; cbn -[fetchReadingIn]
  end.

(** Every way the world can answer [connectBluetooth]. *)
Ltac connect_paths :=
  unfold outcome, after, outputs, connectBluetooth, mbind, Async_bind, abind, tryCatch, await,
    output, consoleLog, liftM, appState, athrow;
  cbn -[fetchReadingIn];
  repeat connect_step.

Ltac same_answer :=
  repeat match goal with
  | H1 : ?x = Fulfilled _, H2 : ?x = Fulfilled _ |- _ =>
      rewrite H1 in H2; injection H2 as <-
  | H1 : ?x = Fulfilled _, H2 : ?x = Rejected _ |- _ =>
      rewrite H1 in H2; discriminate
  | H1 : ?x = Rejected _, H2 : ?x = Rejected _ |- _ =>
      rewrite H1 in H2; injection H2 as <-
  end.

Ltac first_read :=
  match goal with
  | |- context [fetchReadingIn ?s ?w ?b ?st] =>
      let st' := fresh "st'" in
      let log := fresh "log" in
      destruct (fetchReadingIn_frame s w b st)
        as (st' & log & -> & Hstatus & Hsim & Hdev & Hchar & Halerts & Hlog);
      cbn in Hstatus, Hsim, Hdev, Hchar; cbn
  end.

Ltac by_answers :=
  repeat match goal with H : ?x = _ |- context [?x] => rewrite H end; reflexivity.

Ltac path_connects :=
  unfold connects, longThenShort; eexists _, _;
  split; [eassumption|]; split; [eassumption|];
  split; [by_answers | by_answers].

Ltac world_connects := eexists _, _; path_connects.

(** What a hypothesis [connects w d c] says on the path taken. *)
Ltac use_connects H :=
  let server := fresh "server" in let service := fresh "service" in
  let H1 := fresh in let H2 := fresh in let H3 := fresh in let H4 := fresh in
  destruct H as (server & service & H1 & H2 & H3 & H4);
  unfold longThenShort in *;
  repeat (same_answer;
          match goal with
          | E : ?x = _, H' : context [match ?x with Fulfilled _ => _ | Rejected _ => _ end] |- _ =>
              rewrite E in H'; cbn in H'
          | H' : Some _ = Some _ |- _ => injection H' as <-
          | H' : None = Some _ |- _ => discriminate H'
          end);
  try discriminate.

Ltac world_refuses H :=
  let d := fresh "d" in let c := fresh "c" in
  destruct H as (d & c & H); use_connects H.

(** X14. [connectBluetooth] never throws: a failure is caught and alerted.
    It leaves simulation mode off and the status connected or disconnected;
    connected exactly when the world lets the connection through. *)
Theorem connectBluetooth_settles (w : World) (b : Browser) (st : AppState) :
  let st' := after connectBluetooth w b st in
  outcome connectBluetooth w b st = Returned ()
  ∧ isSimulationMode st' = false
  ∧ (connectionStatus st' = connected ∨ connectionStatus st' = disconnected)
  ∧ (connectionStatus st' = connected
     ↔ ∃ device characteristic, connects w device characteristic).
Proof.
  cbn zeta. connect_paths; try first_read.
  all: split; [reflexivity|]; split; [done|]; split; [auto|].
  all: split; [intros Hc | intros Hc].
  all: try discriminate Hc.
  all: try done.
  all: try world_connects.
  all: try by world_refuses Hc.
Qed.

Lemma prefix_step {A} (x : A) (l pre log : list A) :
  l = pre ++ log → x :: l = (x :: pre) ++ log.
Proof. by intros ->. Qed.

(** The state in which the first read is made. *)
Lemma connectBluetooth_connected (w : World) (b : Browser) (st : AppState)
    (device : BluetoothDevice) (characteristic : BluetoothRemoteGATTCharacteristic) :
  connects w device characteristic →
  let base := {| connectionStatus := connected; readings := readings st;
                 latestReading := latestReading st; notification := notification st;
                 nextUpdateIn := nextUpdateIn st; isSimulationMode := false;
                 deviceRef := Some device; characteristicRef := Some characteristic |} in
  ∃ pre,
    connectBluetooth w b st =
      (Returned (), after (fetchReadingIn (isSimulationMode st)) w b base,
       pre ++ outputs (fetchReadingIn (isSimulationMode st)) w b base)
    ∧ alerts pre = []
    ∧ (∀ c, c ∈ calls pre → c ≠ CallRandom ∧ ∀ ch, c ≠ CallReadValue ch)
    ∧ AddEventListener device "gattserverdisconnected" ∈ pre.
Proof.
  intros Hc. cbn zeta.
  assert (∃ pre, (connectBluetooth w b st).1.1 = Returned ()
     ∧ (connectBluetooth w b st).1.2 = after (fetchReadingIn (isSimulationMode st)) w b
      {| connectionStatus := connected; readings := readings st;
                 latestReading := latestReading st; notification := notification st;
                 nextUpdateIn := nextUpdateIn st; isSimulationMode := false;
                 deviceRef := Some device; characteristicRef := Some characteristic |}
     ∧ (connectBluetooth w b st).2 = pre ++ outputs (fetchReadingIn (isSimulationMode st)) w b
      {| connectionStatus := connected; readings := readings st;
                 latestReading := latestReading st; notification := notification st;
                 nextUpdateIn := nextUpdateIn st; isSimulationMode := false;
                 deviceRef := Some device; characteristicRef := Some characteristic |}
    ∧ alerts pre = []
    ∧ (∀ c, c ∈ calls pre → c ≠ CallRandom ∧ ∀ ch, c ≠ CallReadValue ch)
    ∧ AddEventListener device "gattserverdisconnected" ∈ pre) as (pre & H1 & H2 & H3 & H4).
  2:{ exists pre. split; [|exact H4].
      destruct (connectBluetooth w b st) as [[r st'] log]. cbn in *. by subst. }
  connect_paths; try (by use_connects Hc).
  all: use_connects Hc.
  all: first_read.
  all: eexists; split; [reflexivity|]; split; [reflexivity|].
  all: split; [repeat apply prefix_step; symmetry; apply app_nil_l|].
  all: split; [reflexivity|].
  all: split; [|rewrite !elem_of_cons; auto 20].
  all: intros c Hin; cbn in Hin; rewrite !elem_of_cons, elem_of_nil in Hin.
  all: intuition (subst; discriminate).
Qed.

(** X15. When the world lets the connection through, the device and the
    characteristic it gave are the ones kept in the two references, the
    disconnect listener is on that device, and nothing is alerted, whatever
    the first read does. *)
Theorem connect_keeps_device_and_characteristic (w : World) (b : Browser) (st : AppState)
    (device : BluetoothDevice) (characteristic : BluetoothRemoteGATTCharacteristic) :
  connects w device characteristic →
  let st' := after connectBluetooth w b st in
  deviceRef st' = Some device
  ∧ characteristicRef st' = Some characteristic
  ∧ AddEventListener device "gattserverdisconnected" ∈ outputs connectBluetooth w b st
  ∧ alerts (outputs connectBluetooth w b st) = [].
Proof.
  intros Hc. cbn zeta.
  destruct (connectBluetooth_connected w b st device characteristic Hc)
    as (pre & E & Hal & _ & Hl).
  cbn zeta in E. unfold after, outputs in *. rewrite E. cbn [fst snd].
  destruct (fetchReadingIn_frame (isSimulationMode st) w b
              {| connectionStatus := connected; readings := readings st;
                 latestReading := latestReading st; notification := notification st;
                 nextUpdateIn := nextUpdateIn st; isSimulationMode := false;
                 deviceRef := Some device; characteristicRef := Some characteristic |})
    as (st' & log & -> & _ & _ & Hd & Hch & Hlog & _).
  cbn [fst snd]. split; [exact Hd|]. split; [exact Hch|].
  split; [apply elem_of_app; by left|].
  by rewrite alerts_app, Hal, Hlog.
Qed.

(** X16. What [connectBluetooth] alerts: nothing when the connection gets
    through; otherwise exactly one message, made from the rejection of the
    device request or of the GATT connection, or the fixed text for a
    service, or for a characteristic, found under neither of its names. *)
Theorem connect_alerts (w : World) (b : Browser) (st : AppState) :
  alerts (outputs connectBluetooth w b st) =
    match requestDevice w with
    | Rejected error => [failureMessage error]
    | Fulfilled device =>
        match gattConnect w device with
        | Rejected error => [failureMessage error]
        | Fulfilled server =>
            match longThenShort (getPrimaryService w server SERVICE_UUID_LONG)
                                (getPrimaryService w server SERVICE_UUID_SHORT) with
            | None => [serviceNotFoundMessage]
            | Some service =>
                match longThenShort (getCharacteristic w service CHARACTERISTIC_UUID_LONG)
                                    (getCharacteristic w service CHARACTERISTIC_UUID_SHORT) with
                | None => [characteristicNotFoundMessage]
                | Some _ => []
                end
            end
        end
    end.
Proof.
  unfold longThenShort. connect_paths; try first_read.
  all: unfold alerts in *; cbn; rewrite ?Halerts; try reflexivity.
Qed.

(** What a refused connection leaves. *)
Lemma connectBluetooth_refused (w : World) (b : Browser) (st : AppState) :
  (∀ device characteristic, ¬ connects w device characteristic) →
  after connectBluetooth w b st =
    {| connectionStatus := disconnected; readings := readings st;
       latestReading := latestReading st; notification := notification st;
       nextUpdateIn := nextUpdateIn st; isSimulationMode := false;
       deviceRef := match requestDevice w with
                    | Fulfilled device => Some device
                    | Rejected _ => deviceRef st
                    end;
       characteristicRef := characteristicRef st |}
  ∧ (∀ device, requestDevice w = Fulfilled device →
       AddEventListener device "gattserverdisconnected" ∈ outputs connectBluetooth w b st)
  ∧ ∀ c, c ∈ calls (outputs connectBluetooth w b st) →
      c ≠ CallRandom ∧ ∀ characteristic, c ≠ CallReadValue characteristic.
Proof.
  intros Hno. connect_paths.
  all: try (exfalso; eapply Hno; path_connects).
  all: split; [reflexivity|].
  all: split; [intros d [= <-]; rewrite !elem_of_cons; auto 20 | ].
  all: intros c Hin; cbn in Hin; rewrite !elem_of_cons, elem_of_nil in Hin.
  all: intuition (subst; discriminate).
Qed.

(** Whether the world lets a connection through can be told from its
    answers. *)
Lemma classic_connects (w : World) :
  (∃ device characteristic, connects w device characteristic)
  ∨ (∀ device characteristic, ¬ connects w device characteristic).
Proof.
  unfold connects, longThenShort.
  destruct (requestDevice w) as [d|e] eqn:Hd.
  2:{ right. intros d c (server & service & [=] & _). }
  destruct (gattConnect w d) as [server|e] eqn:Hg.
  2:{ right. intros d' c (server & service & [= <-] & Hg' & _). congruence. }
  destruct (longThenShort (getPrimaryService w server SERVICE_UUID_LONG)
                          (getPrimaryService w server SERVICE_UUID_SHORT))
    as [service|] eqn:Hs.
  2:{ right. intros d' c (server' & service & [= <-] & Hg' & Hs' & _).
      rewrite Hg in Hg'. injection Hg' as <-. unfold longThenShort in Hs. congruence. }
  destruct (longThenShort (getCharacteristic w service CHARACTERISTIC_UUID_LONG)
                          (getCharacteristic w service CHARACTERISTIC_UUID_SHORT))
    as [c|] eqn:Hc.
  2:{ right. intros d' c (server' & service' & [= <-] & Hg' & Hs' & Hc').
      rewrite Hg in Hg'. injection Hg' as <-. unfold longThenShort in Hs, Hc.
      rewrite Hs in Hs'. injection Hs' as <-. congruence. }
  left. exists d, c, server, service. done.
Qed.

(** X17. When the world does not let the connection through, the attempt
    ends disconnected and out of simulation mode; the history, the latest
    reading, the banner, the countdown and the characteristic reference are
    as before.  A device that was chosen stays in the device reference with
    the disconnect listener on it.  Nothing is read and no random number is
    drawn. *)
Theorem connect_failure_state (w : World) (b : Browser) (st : AppState) :
  (∀ device characteristic, ¬ connects w device characteristic) →
  let st' := after connectBluetooth w b st in
  connectionStatus st' = disconnected
  ∧ isSimulationMode st' = false
  ∧ readings st' = readings st
  ∧ latestReading st' = latestReading st
  ∧ notification st' = notification st
  ∧ nextUpdateIn st' = nextUpdateIn st
  ∧ characteristicRef st' = characteristicRef st
  ∧ deviceRef st' = match requestDevice w with
                    | Fulfilled device => Some device
                    | Rejected _ => deviceRef st
                    end
  ∧ (∀ device, requestDevice w = Fulfilled device →
       AddEventListener device "gattserverdisconnected" ∈ outputs connectBluetooth w b st)
  ∧ ∀ c, c ∈ calls (outputs connectBluetooth w b st) →
      c ≠ CallRandom ∧ ∀ characteristic, c ≠ CallReadValue characteristic.
Proof.
  intros Hno. cbn zeta.
  destruct (connectBluetooth_refused w b st Hno) as (-> & Hl & Hcalls).
  cbn. auto 12.
Qed.

Ltac which_call Hin :=
  cbn in Hin;
  unfold SERVICE_UUID_LONG, SERVICE_UUID_SHORT,
    CHARACTERISTIC_UUID_LONG, CHARACTERISTIC_UUID_SHORT in Hin;
  rewrite ?elem_of_cons, ?elem_of_nil in Hin;
  repeat match type of Hin with _ ∨ _ => destruct Hin as [Hin|Hin] end;
  try discriminate Hin; try done;
  try (apply calls_fetchOutput in Hin as [Hin | [? Hin]]; [discriminate Hin.. | assumption]);
  try injection Hin as ->.

Ltac this_call :=
  cbn; rewrite ?elem_of_cons; repeat first [left; reflexivity | right].

(** X18. The short names are asked for only after the long ones have been
    turned down: the service by its short UUID exactly when the server
    rejected the long one, and the characteristic by its short UUID exactly
    when the service that was found rejected the long one. *)
Theorem short_uuid_only_after_long (w : World) (b : Browser) (st : AppState) :
  (∀ server,
     CallGetPrimaryService server SERVICE_UUID_SHORT ∈ calls (outputs connectBluetooth w b st)
     ↔ ∃ device error,
         requestDevice w = Fulfilled device
         ∧ gattConnect w device = Fulfilled server
         ∧ getPrimaryService w server SERVICE_UUID_LONG = Rejected error)
  ∧ (∀ service,
       CallGetCharacteristic service CHARACTERISTIC_UUID_SHORT
         ∈ calls (outputs connectBluetooth w b st)
       ↔ ∃ device server error,
           requestDevice w = Fulfilled device
           ∧ gattConnect w device = Fulfilled server
           ∧ longThenShort (getPrimaryService w server SERVICE_UUID_LONG)
                           (getPrimaryService w server SERVICE_UUID_SHORT) = Some service
           ∧ getCharacteristic w service CHARACTERISTIC_UUID_LONG = Rejected error).
Proof.
  connect_paths; try first_read.
  all: split; [intros server | intros service].
  all: split; [intros Hin | intros Hex].
  all: try (which_call Hin; fail).
  all: try (which_call Hin; eexists _, _;
            split; [reflexivity|]; split; eassumption).
  all: try (which_call Hin; eexists _, _, _;
            split; [reflexivity|]; split; [eassumption|];
            split; [unfold longThenShort; by_answers | eassumption]).
  all: try (destruct Hex as (device & error & [= <-] & ? & ?); same_answer; this_call).
  all: destruct Hex as (device & server & error & [= <-] & ? & Hs & ?);
    unfold longThenShort in Hs; same_answer;
    repeat match goal with
           | E : ?x = _, H' : context [match ?x with Fulfilled _ => _ | Rejected _ => _ end]
             |- _ => rewrite E in H'; cbn in H'
           end;
    simplify_eq; same_answer; this_call.
Qed.

(** X19. [connectBluetooth] makes its first read with the [fetchReading] of
    the render in which the button was clicked.  Clicked while simulation
    mode is on, a successful connection therefore does not read the device:
    it draws two random numbers and records a simulated reading, although it
    has just switched simulation mode off. *)
#[warnings="-inexact-float"]
Theorem connect_from_simulation_reads_simulated (w : World) (b : Browser) (st : AppState)
    (device : BluetoothDevice) (characteristic : BluetoothRemoteGATTCharacteristic) :
  (∀ y, hasChar "," (largeToString y) = false) →
  isSimulationMode st = true →
  connects w device characteristic →
  let st' := after connectBluetooth w b st in
  isSimulationMode st' = false
  ∧ characteristicRef st' = Some characteristic
  ∧ (∀ ch, CallReadValue ch ∉ calls (outputs connectBluetooth w b st))
  ∧ ∃ r,
      latestReading st' = Some r
      ∧ readings st' = sliceLast 20 (readings st ++ [r])
      ∧ moisture r =
          (if PrimFloat.ltb 0.8%float (random w 1) then WET
           else if PrimFloat.ltb 0.6%float (random w 1) then MIXED
           else DRY).
Proof.
  intros Hlarge Hsim Hc. cbn zeta.
  destruct (connectBluetooth_connected w b st device characteristic Hc)
    as (pre & E & _ & Hcalls & _).
  cbn zeta in E. rewrite Hsim in E.
  match type of E with
  | context [after (fetchReadingIn true) w b ?base] =>
      destruct (fetchReadingIn_simulated w b base Hlarge)
        as (t & r & _ & _ & Hm & Hafter & Hrandom)
  end.
  unfold after, outputs in *. rewrite E. cbn [fst snd]. rewrite Hafter, calls_app, Hrandom.
  cbn [isSimulationMode characteristicRef latestReading readings].
  split; [done|]. split; [done|]. split.
  - intros ch [Hin|Hin]%elem_of_app.
    + destruct (Hcalls _ Hin) as [_ Hn]. by apply (Hn ch).
    + rewrite !elem_of_cons, elem_of_nil in Hin. intuition discriminate.
  - exists r. done.
Qed.

(** X20. Clicked outside simulation mode, a successful connection ends with
    one read of the characteristic just found, and of no other: what the
    read delivers is processed in the connected state; a read that fails
    leaves the component connected without a reading. *)
Theorem connect_reads_device_at_once (w : World) (b : Browser) (st : AppState)
    (device : BluetoothDevice) (characteristic : BluetoothRemoteGATTCharacteristic) :
  isSimulationMode st = false →
  connects w device characteristic →
  let base := {| connectionStatus := connected; readings := readings st;
                 latestReading := latestReading st; notification := notification st;
                 nextUpdateIn := nextUpdateIn st; isSimulationMode := false;
                 deviceRef := Some device; characteristicRef := Some characteristic |} in
  after connectBluetooth w b st =
    match readValue w characteristic with
    | Fulfilled dataString => exec (processData dataString) b base
    | Rejected _ => base
    end
  ∧ last (calls (outputs connectBluetooth w b st)) = Some (CallReadValue characteristic)
  ∧ ∀ ch, CallReadValue ch ∈ calls (outputs connectBluetooth w b st) → ch = characteristic.
Proof.
  intros Hsim Hc. cbn zeta.
  destruct (connectBluetooth_connected w b st device characteristic Hc)
    as (pre & E & _ & Hcalls & _).
  cbn zeta in E. rewrite Hsim in E. unfold after, outputs in *.
  rewrite E. rewrite fetchReadingIn_bluetooth. cbn [characteristicRef fst snd].
  destruct (readValue w characteristic) as [s|e]; cbn [fst snd].
  all: split; [reflexivity|].
  all: rewrite calls_app; cbn; rewrite ?calls_app, ?calls_Sync.
  all: split; [apply last_snoc|].
  all: intros ch [Hin|Hin]%elem_of_app.
  all: try by (destruct (Hcalls _ Hin) as [_ Hn]; exfalso; apply (Hn ch)).
  all: rewrite !elem_of_cons, elem_of_nil in Hin.
  all: intuition congruence.
Qed.

(** [connectBluetooth] does not ask for the notification permission. *)
Lemma connectBluetooth_no_permission (w : World) (b : Browser) (st : AppState) :
  RequestPermission ∉ outputs connectBluetooth w b st.
Proof.
  connect_paths; try first_read.
  all: intros Hin; rewrite ?elem_of_cons, ?elem_of_nil in Hin.
  all: repeat match type of Hin with _ ∨ _ => destruct Hin as [Hin|Hin] end.
  all: try discriminate Hin; try done.
  all: rewrite Forall_forall in Hlog; by apply Hlog in Hin.
Qed.
End Connect.

(** ** Polling, disconnecting and the reachable states *)
Section Component.
Context {J : JSNumber} {F : JSFormat}.

Lemma pollStep_run (w : World) (b : Browser) (st : AppState) :
  pollStep w b st =
    if bool_decide (nextUpdateIn st ≤ 1) then
      let '(r, st', log) :=
        fetchReadingIn (isSimulationMode st) w b (exec (setNextUpdateIn (λ _, 5)) b st) in
      (r, st', Sync FetchReading :: log)
    else (Returned (), exec (setNextUpdateIn (λ _, nextUpdateIn st - 1)) b st, []).
Proof.
  unfold pollStep, mbind, Async_bind, abind, appState, liftM. cbn -[fetchReadingIn timerTick].
  rewrite timerTick_run. cbn -[fetchReadingIn].
  case_bool_decide; [|reflexivity].
  rewrite fetchReading_unfold. cbn -[fetchReadingIn].
  unfold exec. cbn -[fetchReadingIn].
  by destruct (fetchReadingIn _ _ _ _) as [[r st'] log].
Qed.

(** [processData] overwrites the count. *)
Lemma processData_forgets_count (dataString : string) (c : Z) (b : Browser) (st : AppState) :
  exec (processData dataString) b (exec (setNextUpdateIn (λ _, c)) b st)
  = exec (processData dataString) b st.
Proof.
  destruct (processData_run dataString b st) as (temp & moist & Hcase & Hrun).
  destruct (processData_run dataString b (exec (setNextUpdateIn (λ _, c)) b st))
    as (temp' & moist' & Hcase' & Hrun').
  cbn zeta in *. unfold exec in *. rewrite Hrun, Hrun'. cbn.
  assert (temp' = temp ∧ moist' = moist) as [-> ->]; [|reflexivity].
  destruct Hcase as [(Hl & -> & p1 & Hp1 & ->) | (Hl & -> & ->)],
           Hcase' as [(Hl' & -> & p1' & Hp1' & ->) | (Hl' & -> & ->)]; try lia.
  - rewrite Hp1 in Hp1'. by injection Hp1' as <-.
  - done.
Qed.

(** X21. A timer firing at a count of 1 or less in Bluetooth mode whose read
    succeeds leaves exactly the state [processData] makes of the payload:
    the temporary count of 5 is overwritten by the period of the reading. *)
Theorem poll_success_overwrites_buffer (w : World) (b : Browser) (st : AppState)
    (characteristic : BluetoothRemoteGATTCharacteristic) (dataString : string) :
  isSimulationMode st = false →
  nextUpdateIn st ≤ 1 →
  characteristicRef st = Some characteristic →
  readValue w characteristic = Fulfilled dataString →
  outcome pollStep w b st = Returned ()
  ∧ after pollStep w b st = exec (processData dataString) b st
  ∧ calls (outputs pollStep w b st) = [CallReadValue characteristic]
  ∧ (nextUpdateIn (after pollStep w b st) = 30
     ∨ nextUpdateIn (after pollStep w b st) = 120
     ∨ nextUpdateIn (after pollStep w b st) = 300).
Proof.
  intros Hsim Hcount Hc Hr. unfold outcome, after, outputs.
  rewrite pollStep_run, bool_decide_eq_true_2 by done.
  rewrite Hsim, fetchReadingIn_bluetooth.
  assert (characteristicRef (exec (setNextUpdateIn (λ _, 5)) b st) = characteristicRef st)
    as -> by reflexivity.
  rewrite Hc, Hr. cbn [fst snd]. rewrite processData_forgets_count.
  split; [done|]. split; [done|].
  split; [by rewrite app_comm_cons, calls_app, calls_Sync|].
  apply cadence_run.
Qed.

(** X22. A timer firing at a count of 1 or less in Bluetooth mode whose read
    cannot be made or fails changes only the count, to 5: the next four
    firings request nothing and the fifth requests the read again. *)
Theorem poll_failure_retries_after_five (w : World) (b b' : Browser) (st : AppState) :
  isSimulationMode st = false →
  nextUpdateIn st ≤ 1 →
  (characteristicRef st = None
   ∨ ∃ characteristic err,
       characteristicRef st = Some characteristic
       ∧ readValue w characteristic = Rejected err) →
  let st' := after pollStep w b st in
  outcome pollStep w b st = Returned ()
  ∧ st' = exec (setNextUpdateIn (λ _, 5)) b st
  ∧ alerts (outputs pollStep w b st) = []
  ∧ (ticks 4 b' st').2 = []
  ∧ (ticks 5 b' st').2 = [FetchReading].
Proof.
  intros Hsim Hcount Hcase. cbn zeta. unfold outcome, after, outputs.
  rewrite pollStep_run, bool_decide_eq_true_2 by done.
  rewrite Hsim, fetchReadingIn_bluetooth.
  assert (characteristicRef (exec (setNextUpdateIn (λ _, 5)) b st) = characteristicRef st)
    as -> by reflexivity.
  destruct (ticks_until_fetch 4 b' (exec (setNextUpdateIn (λ _, 5)) b st) eq_refl)
    as [H4 H5].
  destruct Hcase as [-> | (c & e & -> & ->)]; cbn [fst snd]; rewrite H4, H5; done.
Qed.

Lemma onDisconnected_state (b : Browser) (st : AppState) :
  exec onDisconnected b st =
    {| connectionStatus := disconnected; readings := readings st;
       latestReading := latestReading st; notification := Some "Device Disconnected";
       nextUpdateIn := nextUpdateIn st; isSimulationMode := isSimulationMode st;
       deviceRef := None; characteristicRef := None |}.
Proof. reflexivity. Qed.

(** X23. After the device has disconnected in Bluetooth mode, timer firings
    and reads change nothing: the timer is off and there is no
    characteristic to read.  The banner keeps saying "Device Disconnected"
    and the connect button is shown enabled. *)
Theorem nothing_polls_after_disconnect (b : Browser) (st : AppState)
    (trace : list (World * Browser * Action)) :
  isSimulationMode st = false →
  Forall (λ step, step.2 = TimerElapsed ∨ step.2 = ReadStarted) trace →
  let st' := operate trace (exec onDisconnected b st) in
  st' = exec onDisconnected b st
  ∧ banner (render st') = Some "Device Disconnected"
  ∧ connectButton (render st') = Some (false, "Connect to Device").
Proof.
  intros Hsim Htrace. cbn zeta. rewrite onDisconnected_state, Hsim.
  match goal with |- context [operate trace ?s] => set (st0 := s) end.
  assert (operate trace st0 = st0) as ->.
  2:{ split; [done|]. unfold render. cbn. done. }
  induction Htrace as [|[[w b'] a] trace Ha _ IH]; [done|].
  cbn [operate]. rewrite <- IH at 2. f_equal.
  cbn in Ha. unfold after. destruct Ha as [-> | ->]; cbn [perform].
  - reflexivity.
  - rewrite fetchReading_unfold. reflexivity.
Qed.

(** *** What every reachable state satisfies *)

Lemma consistent_processData (dataString : string) (b : Browser) (st : AppState) :
  consistent st → consistent (exec (processData dataString) b st).
Proof.
  intros (Hlen & Hlast & Hcount & Hknown & Hrefs).
  destruct (processData_run dataString b st) as (temp & moist & _ & Hrun).
  destruct (moisture_run dataString b st) as (r & Hr & Hm).
  cbn zeta in Hrun. unfold exec in *. rewrite Hrun in *. cbn in Hr.
  injection Hr as <-. cbn in Hm. unfold consistent. cbn.
  split; [apply sliceLast_length|].
  split; [symmetry; apply sliceLast_last; lia|].
  split; [destruct moist; lia|].
  split; [|exact Hrefs].
  intros r' Hin. unfold sliceLast in Hin. apply subseteq_drop in Hin.
  apply elem_of_app in Hin as [Hin | ->%list_elem_of_singleton]; [by apply Hknown|].
  cbn. intuition congruence.
Qed.

Lemma consistent_fetch (simulation : bool) (w : World) (b : Browser) (st : AppState) :
  consistent st → consistent (after (fetchReadingIn simulation) w b st).
Proof.
  intros Hst. unfold after.
  destruct (fetchReadingIn_shape simulation w b st) as (st' & log & -> & [-> | [s ->]] & _);
    [done | by apply consistent_processData].
Qed.

(** The state [connectBluetooth] leaves is the state it found with the
    status, the mode and the references changed, or that with one payload
    processed. *)
Lemma connectBluetooth_after (w : World) (b : Browser) (st : AppState) :
  ∃ status dev chr,
    let base := {| connectionStatus := status; readings := readings st;
                   latestReading := latestReading st; notification := notification st;
                   nextUpdateIn := nextUpdateIn st; isSimulationMode := false;
                   deviceRef := dev; characteristicRef := chr |} in
    (status = connected → is_Some dev ∧ is_Some chr)
    ∧ (after connectBluetooth w b st = base
       ∨ ∃ dataString, after connectBluetooth w b st = exec (processData dataString) b base).
Proof.
  destruct (classic_connects w) as [(d & c & Hc) | Hno].
  - destruct (connectBluetooth_connected w b st d c Hc) as (pre & E & _).
    cbn zeta in E. exists connected, (Some d), (Some c). cbn zeta.
    split; [by eauto|]. unfold after in *. rewrite E. cbn [fst snd].
    destruct (fetchReadingIn_shape (isSimulationMode st) w b
      {| connectionStatus := connected; readings := readings st;
         latestReading := latestReading st; notification := notification st;
         nextUpdateIn := nextUpdateIn st; isSimulationMode := false;
         deviceRef := Some d; characteristicRef := Some c |})
      as (st' & log & -> & Hst & _). exact Hst.
  - destruct (connectBluetooth_refused w b st Hno) as [E _].
    eexists disconnected, _, _. cbn zeta. split; [done|]. left. exact E.
Qed.

Lemma consistent_perform (a : Action) (w : World) (b : Browser) (st : AppState) :
  consistent st → consistent (after (perform a) w b st).
Proof.
  intros Hst. destruct a; cbn [perform].
  - unfold after, requestPermissionOnMount, mbind, Async_bind, abind, theBrowser. cbn.
    by destruct (notificationInWindow b && negb (bool_decide (permission b = granted))).
  - destruct (connectBluetooth_after w b st) as (status & dev & chr & Href & Hcase).
    cbn zeta in *.
    assert (consistent
              {| connectionStatus := status; readings := readings st;
                 latestReading := latestReading st; notification := notification st;
                 nextUpdateIn := nextUpdateIn st; isSimulationMode := false;
                 deviceRef := dev; characteristicRef := chr |}) as Hbase.
    { destruct Hst as (? & ? & ? & ? & ?). unfold consistent. cbn. auto 10. }
    destruct Hcase as [-> | [s ->]]; [done | by apply consistent_processData].
  - destruct Hst as (? & ? & ? & ? & ?).
    unfold after, liftM, toggleSimulation, mbind, M_bind, bind, getState. cbn.
    destruct (isSimulationMode st); unfold consistent; cbn.
    + split; [lia|]. split; [done|]. split; [done|]. split; [|done].
      by intros r ?%elem_of_nil.
    + split; [done|]. split; [done|]. split; [lia|]. split; [done|]. done.
  - destruct Hst as (? & ? & ? & ? & ?).
    unfold after, liftM, dispatch, mbind, M_bind, bind, getState. cbn.
    destruct (timerRuns st); [|done].
    rewrite timerTick_run. unfold consistent. cbn.
    split; [done|]. split; [done|]. split; [case_bool_decide; lia|]. done.
  - unfold after. rewrite fetchReading_unfold. by apply consistent_fetch.
  - destruct Hst as (? & ? & ? & ? & ?). unfold consistent. cbn. done.
Qed.

Lemma operate_consistent (trace : list (World * Browser * Action)) (st : AppState) :
  consistent st → consistent (operate trace st).
Proof.
  revert st. induction trace as [|[[w b] a] trace IH]; intros st Hst; [done|].
  cbn [operate]. by apply IH, consistent_perform.
Qed.

(** X24. Whatever the user, the timer, the device and the world do, with
    handlers running one after the other from the mounted state: the history
    holds at most 20 readings, none of them UNKNOWN; the latest reading is
    the last of the history, so the chart is absent exactly when there is no
    latest reading; the count lies between 0 and 300; and a state that is
    connected outside simulation mode has a device and a characteristic. *)
Theorem reachable_states (trace : list (World * Browser * Action)) :
  let st := operate trace initialState in
  (length (readings st) ≤ 20)%nat
  ∧ latestReading st = last (readings st)
  ∧ 0 ≤ nextUpdateIn st ≤ 300
  ∧ (∀ r, r ∈ readings st → moisture r ≠ UNKNOWN)
  ∧ (connectionStatus st = connected → isSimulationMode st = false →
     is_Some (deviceRef st) ∧ is_Some (characteristicRef st))
  ∧ (chart (render st) = None ↔ latestReading st = None).
Proof.
  cbn zeta.
  assert (consistent initialState) as H0.
  { unfold consistent. cbn. split; [lia|]. split; [done|]. split; [lia|].
    split; [by intros r ?%elem_of_nil | done]. }
  destruct (operate_consistent trace initialState H0) as (H1 & H2 & H3 & H4 & H5).
  split; [exact H1|]. split; [exact H2|]. split; [exact H3|]. split; [exact H4|].
  split; [exact H5|].
  cbn [render chart]. rewrite HistoryChart_None_iff, H2. symmetry. apply last_None.
Qed.
End Component.

(** ** What each handler puts out, and the start of the simulation *)
Section Outputs.
Context {J : JSNumber} {F : JSFormat}.

Lemma liftM_outputs {A} (m : M A) (w : World) (b : Browser) (st : AppState) (o : Output) :
  o ∈ outputs (liftM m) w b st → ∃ e, o = Sync e.
Proof.
  unfold outputs, liftM. destruct (m b st) as [[[a|d] st'] log]; cbn;
    intros (e & -> & _)%list_elem_of_fmap; eauto.
Qed.

Lemma fetchReading_outputs (w : World) (b : Browser) (st : AppState) :
  Forall fetchOutput (outputs fetchReading w b st).
Proof.
  unfold outputs. rewrite fetchReading_unfold.
  by destruct (fetchReadingIn_shape (isSimulationMode st) w b st) as (st' & log & -> & _ & H).
Qed.

(** X25. Notification permission is asked for only when the component
    mounts, and then exactly when the browser has notifications and the
    permission is not granted yet (also when it was denied); mounting changes
    no state.  No other handler asks again, and only [connectBluetooth]
    ever alerts. *)
Theorem permission_asked_only_on_mount (a : Action) (w : World) (b : Browser) (st : AppState) :
  (RequestPermission ∈ outputs (perform a) w b st
   ↔ a = Mounted ∧ notificationInWindow b = true ∧ permission b ≠ granted)
  ∧ after (perform Mounted) w b st = st
  ∧ (alerts (outputs (perform a) w b st) ≠ [] → a = ConnectClicked).
Proof.
  assert (∀ {A} (m : M A), (RequestPermission ∉ outputs (liftM m) w b st)
                           ∧ alerts (outputs (liftM m) w b st) = []) as Hsync.
  { intros A m. split.
    - by intros [e [=]]%liftM_outputs.
    - unfold outputs, liftM. destruct (m b st) as [[[x|d] st'] log]; cbn;
        apply alerts_fetchOutput, Forall_fmap, Forall_forall; by intros. }
  split; [|split].
  - destruct a; cbn [perform].
    + unfold outputs, requestPermissionOnMount, mbind, Async_bind, abind, theBrowser, output.
      cbn. destruct (notificationInWindow b); cbn.
      2:{ split; [by intros ?%elem_of_nil | by intros (_ & [=] & _)]. }
      case_bool_decide as Hp; cbn.
      * split; [by intros ?%elem_of_nil | by intros (_ & _ & ?)].
      * split; [done | intros _; by apply list_elem_of_singleton].
    + split; [|by intros ([=] & _)].
      intros Hin. by apply connectBluetooth_no_permission in Hin.
    + split; [by intros ?%Hsync | by intros ([=] & _)].
    + split; [by intros ?%Hsync | by intros ([=] & _)].
    + split; [|by intros ([=] & _)].
      intros Hin. pose proof (fetchReading_outputs w b st) as Hf.
      rewrite Forall_forall in Hf. by apply Hf in Hin.
    + split; [by intros ?%Hsync | by intros ([=] & _)].
  - cbn [perform]. unfold after, requestPermissionOnMount, mbind, Async_bind, abind, theBrowser.
    cbn. by destruct (notificationInWindow b && negb (bool_decide (permission b = granted))).
  - intros H. destruct a; cbn [perform] in H; [exfalso; apply H | done | exfalso; apply H..].
    + unfold outputs, requestPermissionOnMount, mbind, Async_bind, abind, theBrowser, output.
      cbn. by destruct (notificationInWindow b && negb (bool_decide (permission b = granted))).
    + apply Hsync.
    + apply Hsync.
    + apply alerts_fetchOutput, fetchReading_outputs.
    + apply Hsync.
Qed.

(** The simulated read records a reading, whatever the random numbers. *)
#[warnings="-inexact-float"]
Lemma fetchReadingIn_true_records (w : World) (b : Browser) (st : AppState) :
  ∃ r,
    latestReading (after (fetchReadingIn true) w b st) = Some r
    ∧ readings (after (fetchReadingIn true) w b st) = sliceLast 20 (readings st ++ [r])
    ∧ isSimulationMode (after (fetchReadingIn true) w b st) = isSimulationMode st
    ∧ calls (outputs (fetchReadingIn true) w b st) = [CallRandom; CallRandom].
Proof.
  destruct (toFixed_1_returns (36 + random w 0 * 1.5)%float) as [t Ht].
  unfold after, outputs. rewrite (fetchReadingIn_simulation w b st t Ht). cbn zeta.
  cbn [fst snd].
  match goal with
  | |- context [processData ?p] =>
      destruct (processData_run p b st) as (temp & moist & _ & Hrun)
  end.
  cbn zeta in Hrun. unfold exec. rewrite Hrun. cbn [fst snd].
  eexists. split; [reflexivity|]. split; [reflexivity|]. split; [reflexivity|].
  by rewrite calls_app, calls_Sync.
Qed.

(** X26. Switching simulation mode on starts the timer with the count at 1:
    the first firing requests a read, and that read draws two random numbers
    and appends a simulated reading to whatever history there was, readings
    of a real device included; the status line then reads "Simulation
    Mode". *)
Theorem simulation_reads_at_first_tick (w1 w2 w3 : World) (b1 b2 b3 : Browser)
    (st : AppState) :
  isSimulationMode st = false →
  let st1 := after (perform SimulationClicked) w1 b1 st in
  let st2 := after (perform TimerElapsed) w2 b2 st1 in
  let st3 := after (perform ReadStarted) w3 b3 st2 in
  timerRuns st1 = true
  ∧ outputs (perform TimerElapsed) w2 b2 st1 = [Sync FetchReading]
  ∧ calls (outputs (perform ReadStarted) w3 b3 st2) = [CallRandom; CallRandom]
  ∧ (∃ r, latestReading st3 = Some r ∧ readings st3 = sliceLast 20 (readings st ++ [r]))
  ∧ statusText (render st3) = "Simulation Mode".
Proof.
  intros Hsim. cbn zeta.
  assert (after (perform SimulationClicked) w1 b1 st
          = {| connectionStatus := connected; readings := readings st;
               latestReading := latestReading st; notification := notification st;
               nextUpdateIn := 1; isSimulationMode := true;
               deviceRef := deviceRef st; characteristicRef := characteristicRef st |}) as ->.
  { unfold after. cbn [perform]. unfold liftM, toggleSimulation, mbind, M_bind, bind, getState.
    cbn. rewrite Hsim. reflexivity. }
  match goal with |- context [timerRuns ?s] => set (st1 := s) end.
  assert (perform TimerElapsed w2 b2 st1
          = (Returned (), exec (setNextUpdateIn (λ _, 5)) b2 st1, [Sync FetchReading])) as E.
  { cbn [perform]. unfold liftM, dispatch, mbind, M_bind, bind, getState. cbn.
    reflexivity. }
  unfold after, outputs. rewrite E. cbn [fst snd perform].
  rewrite fetchReading_unfold.
  destruct (fetchReadingIn_true_records w3 b3 (exec (setNextUpdateIn (λ _, 5)) b2 st1))
    as (r & Hr & Hrs & Hs & Hc).
  unfold after, outputs in *.
  change (isSimulationMode (exec (setNextUpdateIn (λ _, 5)) b2 st1)) with true in *.
  split; [reflexivity|]. split; [reflexivity|]. split; [exact Hc|].
  split; [exists r; split; [exact Hr | exact Hrs]|].
  unfold render. cbn [statusText]. by rewrite Hs.
Qed.
End Outputs.

(** ** The properties on concrete runs *)
Section Scenarios.
#[local] Existing Instance Decimal.decimalNumber.
#[local] Existing Instance exampleFormat.



(** X8 where the read is rejected. *)
Lemma failed_read_changes_nothing_witness :
  isSimulationMode connectedState = false
  ∧ readValue failingReadWorld {| handle := 3 |}
      = Rejected (newError "GATT operation failed for unknown reason.")
  ∧ outcome fetchReading failingReadWorld phone connectedState = Returned ()
  ∧ after fetchReading failingReadWorld phone connectedState = connectedState
  ∧ outputs fetchReading failingReadWorld phone connectedState =
      [Call (CallReadValue {| handle := 3 |});
       Console levelError "Read Error:"
         (ArgError (newError "GATT operation failed for unknown reason."))].
Proof.
  split; [reflexivity|]. split; [reflexivity|].
  destruct (failed_read_changes_nothing failingReadWorld phone connectedState)
    as (H1 & H2 & _ & H3).
  - reflexivity.
  - right. eexists _, _. split; reflexivity.
  - split; [exact H1|]. split; [exact H2|]. apply H3; reflexivity.
Defined.

(** X9 on the payload "37.5,WET". *)
Lemma successful_read_is_processed_witness :
  isSimulationMode connectedState = false
  ∧ characteristicRef connectedState = Some {| handle := 3 |}
  ∧ readValue (friendlyWorld "37.5,WET") {| handle := 3 |} = Fulfilled "37.5,WET"
  ∧ outcome fetchReading (friendlyWorld "37.5,WET") phone connectedState = Returned ()
  ∧ after fetchReading (friendlyWorld "37.5,WET") phone connectedState
      = exec (processData "37.5,WET") phone connectedState
  ∧ outputs fetchReading (friendlyWorld "37.5,WET") phone connectedState =
      [Call (CallReadValue {| handle := 3 |});
       Console levelLog "Data Received:" (ArgText "37.5,WET")]
      ++ (Sync <$> effects (processData "37.5,WET") phone connectedState).
Proof.
  split; [reflexivity|]. split; [reflexivity|]. split; [reflexivity|].
  apply (successful_read_is_processed (friendlyWorld "37.5,WET") phone connectedState
           {| handle := 3 |} "37.5,WET"); reflexivity.
Defined.

(** X11 with random numbers 0.5 and 0.75: "36.8,MIXED". *)
#[warnings="-inexact-float"]
Lemma simulated_reading_witness :
  (∀ y, JSString.hasChar "," (largeToString y) = false)
  ∧ isSimulationMode simulatingState = true
  ∧ ∃ simTemp r,
      JSFloat.toFixed 1 (36 + random (friendlyWorld "") 0 * 1.5)%float = Normal simTemp
      ∧ latestReading (after fetchReading (friendlyWorld "") phone simulatingState) = Some r
      ∧ readings (after fetchReading (friendlyWorld "") phone simulatingState)
          = sliceLast 20 (readings simulatingState ++ [r])
      ∧ temperature r = parseFloat simTemp
      ∧ moisture r =
          (if PrimFloat.ltb 0.8%float (random (friendlyWorld "") 1) then WET
           else if PrimFloat.ltb 0.6%float (random (friendlyWorld "") 1) then MIXED
           else DRY)
      ∧ calls (outputs fetchReading (friendlyWorld "") phone simulatingState)
          = [CallRandom; CallRandom].
Proof.
  split; [intros y; reflexivity|]. split; [reflexivity|].
  apply (simulated_reading (friendlyWorld "") phone simulatingState);
    [intros y; reflexivity | reflexivity].
Defined.

(** X12 from a count of 3. *)
Lemma read_requested_when_count_runs_out_witness :
  let st := exec (setNextUpdateIn (λ _, 3)) phone initialState in
  nextUpdateIn st = Z.of_nat 3
  ∧ (ticks 2 phone st).2 = []
  ∧ (ticks 2 phone st).1 = exec (setNextUpdateIn (λ _, 1)) phone st
  ∧ (ticks 3 phone st).2 = [FetchReading]
  ∧ (ticks 3 phone st).1 = exec (setNextUpdateIn (λ _, 5)) phone st.
Proof.
  intros st. split; [reflexivity|].
  apply (read_requested_when_count_runs_out 2 phone st). reflexivity.
Defined.

(** X15 in the friendly world. *)
Lemma connect_keeps_device_and_characteristic_witness :
  let w := friendlyWorld "37.5,WET" in
  let st' := after connectBluetooth w phone initialState in
  connects w sensor {| handle := 3 |}
  ∧ deviceRef st' = Some sensor
  ∧ characteristicRef st' = Some {| handle := 3 |}
  ∧ AddEventListener sensor "gattserverdisconnected"
      ∈ outputs connectBluetooth w phone initialState
  ∧ alerts (outputs connectBluetooth w phone initialState) = [].
Proof.
  intros w st'.
  assert (connects w sensor {| handle := 3 |}) as Hc.
  { exists {| serverHandle := 1 |}, {| serviceHandle := 2 |}. repeat split; reflexivity. }
  split; [exact Hc|].
  exact (connect_keeps_device_and_characteristic w phone initialState sensor _ Hc).
Defined.

(** X17 when the user dismisses the chooser. *)
Lemma connect_failure_state_witness :
  let st' := after connectBluetooth cancellingWorld phone connectedState in
  (∀ device characteristic, ¬ connects cancellingWorld device characteristic)
  ∧ connectionStatus st' = disconnected
  ∧ readings st' = readings connectedState
  ∧ deviceRef st' = Some sensor
  ∧ characteristicRef st' = Some {| handle := 3 |}.
Proof.
  intros st'.
  assert (∀ device characteristic, ¬ connects cancellingWorld device characteristic) as Hno.
  { intros d c (server & service & H & _). discriminate H. }
  split; [exact Hno|].
  destruct (connect_failure_state cancellingWorld phone connectedState Hno)
    as (H1 & _ & H3 & _ & _ & _ & H7 & H8 & _).
  auto.
Defined.

(** X19: the button is clicked while simulation mode is on. *)
#[warnings="-inexact-float"]
Lemma connect_from_simulation_reads_simulated_witness :
  let w := friendlyWorld "37.5,WET" in
  let st' := after connectBluetooth w phone simulatingState in
  (∀ y, JSString.hasChar "," (largeToString y) = false)
  ∧ isSimulationMode simulatingState = true
  ∧ connects w sensor {| handle := 3 |}
  ∧ isSimulationMode st' = false
  ∧ characteristicRef st' = Some {| handle := 3 |}
  ∧ (∀ ch, CallReadValue ch ∉ calls (outputs connectBluetooth w phone simulatingState))
  ∧ ∃ r,
      latestReading st' = Some r
      ∧ readings st' = sliceLast 20 (readings simulatingState ++ [r])
      ∧ moisture r =
          (if PrimFloat.ltb 0.8%float (random w 1) then WET
           else if PrimFloat.ltb 0.6%float (random w 1) then MIXED
           else DRY).
Proof.
  intros w st'.
  assert (connects w sensor {| handle := 3 |}) as Hc.
  { exists {| serverHandle := 1 |}, {| serviceHandle := 2 |}. repeat split; reflexivity. }
  split; [intros y; reflexivity|]. split; [reflexivity|]. split; [exact Hc|].
  apply (connect_from_simulation_reads_simulated w phone simulatingState sensor _);
    [intros y; reflexivity | reflexivity | exact Hc].
Defined.

(** X20: the first reading comes from the device. *)
Lemma connect_reads_device_at_once_witness :
  let w := friendlyWorld "37.5,WET" in
  let base := exec (setDeviceRef (Some sensor);; setCharacteristicRef (Some {| handle := 3 |});;
                    setConnectionStatus connected) phone initialState in
  isSimulationMode initialState = false
  ∧ connects w sensor {| handle := 3 |}
  ∧ after connectBluetooth w phone initialState = exec (processData "37.5,WET") phone base
  ∧ last (calls (outputs connectBluetooth w phone initialState))
      = Some (CallReadValue {| handle := 3 |}).
Proof.
  intros w base.
  assert (connects w sensor {| handle := 3 |}) as Hc.
  { exists {| serverHandle := 1 |}, {| serviceHandle := 2 |}. repeat split; reflexivity. }
  split; [reflexivity|]. split; [exact Hc|].
  destruct (connect_reads_device_at_once w phone initialState sensor _ eq_refl Hc)
    as (H1 & H2 & _).
  split; [exact H1 | exact H2].
Defined.

(** X21 on the payload "36.5,MIXED". *)
Lemma poll_success_overwrites_buffer_witness :
  let w := friendlyWorld "36.5,MIXED" in
  isSimulationMode connectedState = false
  ∧ nextUpdateIn connectedState ≤ 1
  ∧ characteristicRef connectedState = Some {| handle := 3 |}
  ∧ readValue w {| handle := 3 |} = Fulfilled "36.5,MIXED"
  ∧ after pollStep w phone connectedState = exec (processData "36.5,MIXED") phone connectedState
  ∧ calls (outputs pollStep w phone connectedState) = [CallReadValue {| handle := 3 |}].
Proof.
  intros w. split; [reflexivity|]. split; [cbn; lia|]. split; [reflexivity|].
  split; [reflexivity|].
  destruct (poll_success_overwrites_buffer w phone connectedState {| handle := 3 |}
              "36.5,MIXED" eq_refl (Z.le_refl 1) eq_refl eq_refl) as (_ & H2 & H3 & _).
  split; [exact H2 | exact H3].
Defined.

(** X22 where the read is rejected. *)
Lemma poll_failure_retries_after_five_witness :
  let st' := after pollStep failingReadWorld phone connectedState in
  isSimulationMode connectedState = false
  ∧ nextUpdateIn connectedState ≤ 1
  ∧ readValue failingReadWorld {| handle := 3 |}
      = Rejected (newError "GATT operation failed for unknown reason.")
  ∧ st' = exec (setNextUpdateIn (λ _, 5)) phone connectedState
  ∧ (ticks 4 desktop st').2 = []
  ∧ (ticks 5 desktop st').2 = [FetchReading].
Proof.
  intros st'. split; [reflexivity|]. split; [cbn; lia|]. split; [reflexivity|].
  destruct (poll_failure_retries_after_five failingReadWorld phone desktop connectedState)
    as (_ & H2 & _ & H4 & H5).
  - reflexivity.
  - cbn. lia.
  - right. eexists _, _. split; reflexivity.
  - split; [exact H2|]. split; [exact H4 | exact H5].
Defined.

(** X23: the timer and a read after the disconnect. *)
Lemma nothing_polls_after_disconnect_witness :
  let trace := [(failingReadWorld, phone, TimerElapsed); (failingReadWorld, phone, ReadStarted);
                (failingReadWorld, desktop, TimerElapsed)] in
  let st' := operate trace (exec onDisconnected phone connectedState) in
  isSimulationMode connectedState = false
  ∧ st' = exec onDisconnected phone connectedState
  ∧ banner (render st') = Some "Device Disconnected"
  ∧ connectButton (render st') = Some (false, "Connect to Device").
Proof.
  intros trace st'. split; [reflexivity|].
  apply (nothing_polls_after_disconnect phone connectedState trace); [reflexivity|].
  repeat first [apply Forall_nil_2 | apply Forall_cons_2; [cbn; auto|]].
Defined.

(** X26 from the mounted state. *)
Lemma simulation_reads_at_first_tick_witness :
  let w := friendlyWorld "" in
  let st1 := after (perform SimulationClicked) w phone initialState in
  let st2 := after (perform TimerElapsed) w phone st1 in
  let st3 := after (perform ReadStarted) w phone st2 in
  isSimulationMode initialState = false
  ∧ timerRuns st1 = true
  ∧ outputs (perform TimerElapsed) w phone st1 = [Sync FetchReading]
  ∧ calls (outputs (perform ReadStarted) w phone st2) = [CallRandom; CallRandom]
  ∧ (∃ r, latestReading st3 = Some r
          ∧ readings st3 = sliceLast 20 (readings initialState ++ [r]))
  ∧ statusText (render st3) = "Simulation Mode".
Proof.
  intros w st1 st2 st3. split; [reflexivity|].
  apply (simulation_reads_at_first_tick w w w phone phone phone initialState). reflexivity.
Defined.
End Scenarios.
